(** * The ledger of the biometric wallet: wallets, transfers, deposits,
      withdrawals and portfolio distribution.

    The development embeds the query layer of [server/db.ts] and the tRPC
    procedures of [server/routers/transactions.ts], [server/routers/wallets.ts],
    [server/routers/crypto.ts] and [server/routers/exchange.ts], and proves
    the ledger properties of the specification against them.

    Conventions of the embedding.
    - The two MySQL tables [wallets] and [transactions] are lists of rows, in
      insertion order; the AUTO_INCREMENT primary keys come from two counters.
    - A [decimal(18,8)] column holds a number of units of 10^-8, an integer
      ([Z]); the [amount] strings of the requests are decimal numerals of such
      integers.  The capacity of the columns is outside the model.
    - A JavaScript number is a double.  Module [JS] gives [parseFloat], [+],
      [-], [*], [/], [<], [=== 0], [toString] and [toFixed(8)] on the finite
      doubles: a double is the rational it denotes, and every operation
      rounds its exact result to the nearest double, a tie to the even
      mantissa of 53 bits.  The range of the exponent, NaN, the infinities
      and the sign of zero are outside the model.
    - What a string written to a [decimal(18,8)] column leaves there is
      [db.decimal]: the numeral rounded to 8 decimals, a half away from 0.
    - SQL [=] on varchar columns compares weight strings under the collation
      of the database, a parameter of the model; JavaScript [===] on strings
      is [String.eqb].
    - An [async] function is a state transformer on the store that either
      returns or throws ([Async]); [try]/[catch] is [tryCatch].  A throw keeps
      the writes made before it, as the code runs no SQL transaction.
    - Timestamps ([createdAt], [updatedAt], [completedAt]) are left out. *)

From Stdlib Require Import ZArith QArith Qround Qpower Qreduction.
From Stdlib Require Import List String Bool Lia Lqa.
Import ListNotations.

Local Open Scope string_scope.
Local Open Scope Z_scope.

(* ================================================================== *)
(** ** JavaScript numbers *)

Module JS.

(** A finite double, as the rational it denotes. *)
Definition number : Type := Q.

(** The nearest integer, a tie going to the even one. *)
Definition rne (q : Q) : Z :=
  let f := Qfloor q in
  match (q - inject_Z f ?= 1 # 2)%Q with
  | Lt => f
  | Gt => f + 1
  | Eq => if Z.even f then f else f + 1
  end.

(** The binary exponent of a positive rational: 2^e <= q < 2^(e+1). *)
Definition ilog2 (q : Q) : Z :=
  let d := Z.log2 (Qnum q) - Z.log2 (Zpos (Qden q)) in
  if Qle_bool (2 ^ d) q then d else d - 1.

(** The double nearest to a positive rational: a mantissa of 53 bits. *)
Definition roundPositive (q : Q) : Q :=
  let e := ilog2 q - 52 in
  Qred (inject_Z (rne (q / 2 ^ e)) * 2 ^ e).

Definition round (q : Q) : number :=
  match (q ?= 0)%Q with
  | Eq => 0%Q
  | Gt => roundPositive q
  | Lt => (- roundPositive (- q))%Q
  end.

(** [parseFloat] of the decimal numeral of [units] units of 10^-8. *)
Definition parseFloat (units : Z) : number := round (units # 100000000).

Definition add (x y : number) : number := round (x + y).
Definition sub (x y : number) : number := round (x - y).
Definition mul (x y : number) : number := round (x * y).
Definition div (x y : number) : number := round (x / y).

(** [x < y] and [x === 0] *)
Definition ltb (x y : number) : bool := negb (Qle_bool y x).
Definition isZero (x : number) : bool := Qeq_bool x 0.

(** The decimal exponent of a positive rational: 10^(n-1) <= d < 10^n. *)
Fixpoint climb (fuel : nat) (d : Q) (n : Z) : Z :=
  match fuel with
  | O => n
  | S f => if Qle_bool (10 ^ n) d then climb f d (n + 1) else n
  end.

Fixpoint descend (fuel : nat) (d : Q) (n : Z) : Z :=
  match fuel with
  | O => n
  | S f => if Qle_bool (10 ^ (n - 1)) d then n else descend f d (n - 1)
  end.

Definition magnitude (d : Q) : Z := descend 400 d (climb 400 d 0).

(** [c] reads back as the double whose rounding interval is [lo, hi]; the
    ends belong to it when the mantissa is even. *)
Definition inside (closed : bool) (lo hi c : Q) : bool :=
  if closed then Qle_bool lo c && Qle_bool c hi else ltb lo c && ltb c hi.

(** The numeral of [k] digits nearest to [d], if one reads back as [d]. *)
Definition candidate (d lo hi : Q) (closed : bool) (n k : Z) : option Q :=
  let u := (10 ^ (n - k))%Q in
  let s := Qfloor (d / u) in
  let down := (inject_Z s * u)%Q in
  let up := (inject_Z (s + 1) * u)%Q in
  match inside closed lo hi down, inside closed lo hi up with
  | true, true =>
    match (d - down ?= up - d)%Q with
    | Lt => Some down
    | Gt => Some up
    | Eq => if Z.even s then Some down else Some up
    end
  | true, false => Some down
  | false, true => Some up
  | false, false => None
  end.

Fixpoint digits (fuel : nat) (d lo hi : Q) (closed : bool) (n k : Z) : Q :=
  match fuel with
  | O => d
  | S f =>
    match candidate d lo hi closed n k with
    | Some c => c
    | None => digits f d lo hi closed n (k + 1)
    end
  end.

(** The shortest numeral that reads back as the positive double [d]. *)
Definition shortest (d : Q) : Q :=
  let e := ilog2 d - 52 in
  let m := Qfloor (d / 2 ^ e) in
  let ulp := (2 ^ e)%Q in
  let hi := (d + ulp / 2)%Q in
  let lo := if m =? 2 ^ 52 then (d - ulp / 4)%Q else (d - ulp / 2)%Q in
  digits 17 d lo hi (Z.even m) (magnitude d) 1.

(** [d.toString()], as the rational its numeral denotes. *)
Definition toString (d : number) : Q :=
  match (d ?= 0)%Q with
  | Eq => 0%Q
  | Gt => shortest d
  | Lt => (- shortest (- d))%Q
  end.

Definition halfUp (q : Q) : Z := Qfloor (q + (1 # 2)).

(** A rational in units of 10^-8, a half going away from 0. *)
Definition toUnits (x : Q) : Z :=
  match (x ?= 0)%Q with
  | Eq => 0
  | Gt => halfUp (x * 100000000)
  | Lt => - halfUp (- x * 100000000)
  end.

(** [d.toFixed(8)], in units of 10^-8: the exact value of the double,
    rounded. *)
Definition toFixed8 (d : number) : Z := toUnits d.

End JS.

Arguments JS.round : simpl never.
Arguments JS.parseFloat : simpl never.
Arguments JS.add : simpl never.
Arguments JS.sub : simpl never.
Arguments JS.mul : simpl never.
Arguments JS.div : simpl never.
Arguments JS.ltb : simpl never.
Arguments JS.isZero : simpl never.
Arguments JS.toString : simpl never.
Arguments JS.toUnits : simpl never.
Arguments JS.toFixed8 : simpl never.

(* ================================================================== *)
(** ** drizzle/schema.ts *)

Module TransactionType.
Inductive t := transfer | deposit | withdrawal | exchange.
End TransactionType.

Module TransactionStatus.
Inductive t := pending | completed | failed | cancelled.
End TransactionStatus.

Module Wallet.
(** A row of the [wallets] table. *)
Record t := mk {
  id : Z;
  userId : Z;
  currencyCode : string;
  balance : Z;
  address : option string;
  isActive : bool
}.
End Wallet.

Module InsertTransaction.
(** The values handed to an insert into [transactions]; a field the caller
    leaves out is [None]. *)
Record t := mk {
  fromUserId : option Z;
  toUserId : option Z;
  fromWalletId : Z;
  toWalletId : option Z;
  amount : Z;
  fee : option Z;
  transactionType : TransactionType.t;
  status : option TransactionStatus.t;
  blockchainTxHash : option string;
  description : option string
}.
End InsertTransaction.

Module Transaction.
(** A row of the [transactions] table. *)
Record t := mk {
  id : Z;
  fromUserId : option Z;
  toUserId : option Z;
  fromWalletId : Z;
  toWalletId : option Z;
  amount : Z;
  fee : option Z;
  transactionType : TransactionType.t;
  status : TransactionStatus.t;
  blockchainTxHash : option string;
  description : option string
}.
End Transaction.

(* ================================================================== *)
(** ** The store and the monad of asynchronous database code *)

Record Store := mkStore {
  connected : bool;                      (* getDb() yields a handle *)
  walletRows : list Wallet.t;
  transactionRows : list Transaction.t;
  walletSeq : Z;                         (* next AUTO_INCREMENT of wallets *)
  transactionSeq : Z                     (* next AUTO_INCREMENT of transactions *)
}.

Definition emptyStore : Store := mkStore true [] [] 1 1.

Inductive Outcome (A : Type) :=
| Returned (a : A)
| Thrown (e : string).
Arguments Returned {A} a.
Arguments Thrown {A} e.

Definition Async (A : Type) : Type := Store -> Outcome A * Store.

Definition ret {A} (a : A) : Async A := fun s => (Returned a, s).

Definition throw {A} (e : string) : Async A := fun s => (Thrown e, s).

Definition bind {A B} (m : Async A) (k : A -> Async B) : Async B :=
  fun s =>
    match m s with
    | (Returned a, s') => k a s'
    | (Thrown e, s') => (Thrown e, s')
    end.

Definition tryCatch {A} (body : Async A) (handler : string -> Async A) : Async A :=
  fun s =>
    match body s with
    | (Returned a, s') => (Returned a, s')
    | (Thrown e, s') => handler e s'
    end.

Declare Scope async_scope.
Delimit Scope async_scope with async.
Notation "x <- m ;; k" := (bind m (fun x => k))
  (at level 61, m at next level, right associativity) : async_scope.
Notation "m ;;; k" := (bind m (fun _ => k))
  (at level 61, right associativity) : async_scope.
Local Open Scope async_scope.

(** The shape [{ success: true, ... }] / [{ success: false, error }] every
    procedure answers with. *)
Inductive Reply (A : Type) :=
| Success (payload : A)
| Failure (error : string).
Arguments Success {A} payload.
Arguments Failure {A} error.

(** [ctx.user.id] of a protected procedure. *)
Record Context := mkContext { ctx_user_id : Z }.

(* ================================================================== *)
(** ** server/db.ts *)

Module db.

(** [getDb]: the handle, or null when no database is configured. *)
Definition getDb : Async bool := fun s => (Returned (connected s), s).

(** The prologue [const db = await getDb(); if (!db) throw ...]. *)
Definition requireDb : Async unit :=
  h <- getDb ;;
  if h then ret tt else throw "Database not available".

Definition createWallet (userId : Z) (currencyCode : string)
           (address : option string) : Async unit :=
  requireDb ;;;
  fun s =>
    let row := Wallet.mk (walletSeq s) userId currencyCode 0 address true in
    (Returned tt,
     mkStore (connected s) (walletRows s ++ [row]) (transactionRows s)
             (walletSeq s + 1) (transactionSeq s)).

Definition getUserWallets (userId : Z) : Async (list Wallet.t) :=
  requireDb ;;;
  fun s =>
    (Returned (filter (fun w => Wallet.userId w =? userId) (walletRows s)), s).

Definition getWalletById (walletId : Z) : Async (option Wallet.t) :=
  requireDb ;;;
  fun s =>
    (Returned (find (fun w => Wallet.id w =? walletId) (walletRows s)), s).

Definition setBalance (walletId newBalance : Z) (w : Wallet.t) : Wallet.t :=
  if Wallet.id w =? walletId
  then Wallet.mk (Wallet.id w) (Wallet.userId w) (Wallet.currencyCode w)
                 newBalance (Wallet.address w) (Wallet.isActive w)
  else w.

(** What the numeral of a string leaves in a [decimal(18,8)] column. *)
Definition decimal (numeral : Q) : Z := JS.toUnits numeral.

Definition updateWalletBalance (walletId : Z) (newBalance : Q) : Async unit :=
  requireDb ;;;
  fun s =>
    (Returned tt,
     mkStore (connected s)
             (map (setBalance walletId (decimal newBalance)) (walletRows s))
             (transactionRows s) (walletSeq s) (transactionSeq s)).

(** The row an insert produces: the column defaults of the schema fill the
    fields left out ([status] defaults to pending, [fee] to 0). *)
Definition insertedRow (id : Z) (data : InsertTransaction.t) : Transaction.t :=
  Transaction.mk id
    (InsertTransaction.fromUserId data)
    (InsertTransaction.toUserId data)
    (InsertTransaction.fromWalletId data)
    (InsertTransaction.toWalletId data)
    (InsertTransaction.amount data)
    (match InsertTransaction.fee data with
     | Some f => Some f
     | None => Some 0
     end)
    (InsertTransaction.transactionType data)
    (match InsertTransaction.status data with
     | Some st => st
     | None => TransactionStatus.pending
     end)
    (InsertTransaction.blockchainTxHash data)
    (InsertTransaction.description data).

Definition createTransaction (data : InsertTransaction.t) : Async unit :=
  requireDb ;;;
  fun s =>
    (Returned tt,
     mkStore (connected s) (walletRows s)
             (transactionRows s ++ [insertedRow (transactionSeq s) data])
             (walletSeq s) (transactionSeq s + 1)).

(** SQL [=] between a nullable column and a value: never true on NULL. *)
Definition columnIs (column : option Z) (value : Z) : bool :=
  match column with
  | Some x => x =? value
  | None => false
  end.

(** The [where] of [getUserTransactions]. *)
Definition involves (userId : Z) (t : Transaction.t) : bool :=
  columnIs (Transaction.fromUserId t) userId
  || columnIs (Transaction.toUserId t) userId.

(** [getUserTransactions]: the rows the user sent or received, newest first,
    [limit] of them after skipping [offset].  Rows get their [createdAt] when
    they are inserted, so newest first is the reverse of the insertion
    order.  [limit] and [offset] are natural numbers. *)
Definition getUserTransactions (userId : Z) (limit offset : nat)
  : Async (list Transaction.t) :=
  requireDb ;;;
  fun s =>
    (Returned (firstn limit
                 (skipn offset
                    (rev (filter (involves userId) (transactionRows s))))),
     s).

End db.

Arguments db.decimal : simpl never.

(* ================================================================== *)
(** ** server/routers/transactions.ts *)

(** JavaScript [x || d] on an optional string: [d] when [x] is undefined or
    the empty string. *)
Definition orDefault (x : option string) (d : string) : string :=
  match x with
  | Some s => if String.eqb s "" then d else s
  | None => d
  end.

Module transactionsRouter.

Record TransferInput := mkTransferInput {
  toUserId : Z;
  fromWalletId : Z;
  toWalletId : Z;
  amount : Z;
  description : option string
}.

Definition transferData (ctx : Context) (input : TransferInput)
  : InsertTransaction.t :=
  InsertTransaction.mk
    (Some (ctx_user_id ctx)) (Some (toUserId input))
    (fromWalletId input) (Some (toWalletId input))
    (amount input) (Some 0) TransactionType.transfer
    (Some TransactionStatus.completed)
    None (description input).

Definition transfer (ctx : Context) (input : TransferInput)
  : Async (Reply string) :=
  tryCatch
    (fromWallet <- db.getWalletById (fromWalletId input) ;;
     match fromWallet with
     | None => ret (Failure "Invalid source wallet")
     | Some fw =>
       if negb (Wallet.userId fw =? ctx_user_id ctx)
       then ret (Failure "Invalid source wallet")
       else
         toWallet <- db.getWalletById (toWalletId input) ;;
         match toWallet with
         | None => ret (Failure "Invalid destination wallet")
         | Some tw =>
           let balance := JS.parseFloat (Wallet.balance fw) in
           let amount := JS.parseFloat (amount input) in
           if JS.ltb balance amount
           then ret (Failure "Insufficient balance")
           else
             db.createTransaction (transferData ctx input) ;;;
             let newFromBalance := JS.toString (JS.sub balance amount) in
             let toBalance := JS.parseFloat (Wallet.balance tw) in
             let newToBalance := JS.toString (JS.add toBalance amount) in
             db.updateWalletBalance (fromWalletId input) newFromBalance ;;;
             db.updateWalletBalance (toWalletId input) newToBalance ;;;
             ret (Success "Transfer completed successfully")
         end
     end)
    (fun _ => ret (Failure "Transfer failed")).

Record RecordInput := mkRecordInput {
  walletId : Z;
  r_amount : Z;
  r_blockchainTxHash : option string;
  r_description : option string
}.

Definition depositData (ctx : Context) (input : RecordInput)
  : InsertTransaction.t :=
  InsertTransaction.mk
    None (Some (ctx_user_id ctx))
    (walletId input) (Some (walletId input))
    (r_amount input) (Some 0) TransactionType.deposit
    (Some TransactionStatus.completed)
    (r_blockchainTxHash input)
    (Some (orDefault (r_description input) "Deposit")).

Definition recordDeposit (ctx : Context) (input : RecordInput)
  : Async (Reply string) :=
  tryCatch
    (wallet <- db.getWalletById (walletId input) ;;
     match wallet with
     | None => ret (Failure "Invalid wallet")
     | Some w =>
       if negb (Wallet.userId w =? ctx_user_id ctx)
       then ret (Failure "Invalid wallet")
       else
         db.createTransaction (depositData ctx input) ;;;
         let newBalance :=
           JS.toString (JS.add (JS.parseFloat (Wallet.balance w))
                               (JS.parseFloat (r_amount input))) in
         db.updateWalletBalance (walletId input) newBalance ;;;
         ret (Success "Deposit recorded successfully")
     end)
    (fun _ => ret (Failure "Failed to record deposit")).

Definition withdrawalData (ctx : Context) (input : RecordInput)
  : InsertTransaction.t :=
  InsertTransaction.mk
    (Some (ctx_user_id ctx)) None
    (walletId input) (Some (walletId input))
    (r_amount input) (Some 0) TransactionType.withdrawal
    (Some TransactionStatus.completed)
    (r_blockchainTxHash input)
    (Some (orDefault (r_description input) "Withdrawal")).

Definition recordWithdrawal (ctx : Context) (input : RecordInput)
  : Async (Reply string) :=
  tryCatch
    (wallet <- db.getWalletById (walletId input) ;;
     match wallet with
     | None => ret (Failure "Invalid wallet")
     | Some w =>
       if negb (Wallet.userId w =? ctx_user_id ctx)
       then ret (Failure "Invalid wallet")
       else
         let balance := JS.parseFloat (Wallet.balance w) in
         let amount := JS.parseFloat (r_amount input) in
         if JS.ltb balance amount
         then ret (Failure "Insufficient balance")
         else
           db.createTransaction (withdrawalData ctx input) ;;;
           let newBalance := JS.toString (JS.sub balance amount) in
           db.updateWalletBalance (walletId input) newBalance ;;;
           ret (Success "Withdrawal recorded successfully")
     end)
    (fun _ => ret (Failure "Failed to record withdrawal")).

Record ListInput := mkListInput {
  limit : nat;
  offset : nat;
  type_ : option TransactionType.t;
  l_status : option TransactionStatus.t
}.

Record ListReply := mkListReply {
  transactions : list Transaction.t;
  total : nat
}.

Definition typeEqb (a b : TransactionType.t) : bool :=
  match a, b with
  | TransactionType.transfer, TransactionType.transfer => true
  | TransactionType.deposit, TransactionType.deposit => true
  | TransactionType.withdrawal, TransactionType.withdrawal => true
  | TransactionType.exchange, TransactionType.exchange => true
  | _, _ => false
  end.

Definition statusEqb (a b : TransactionStatus.t) : bool :=
  match a, b with
  | TransactionStatus.pending, TransactionStatus.pending => true
  | TransactionStatus.completed, TransactionStatus.completed => true
  | TransactionStatus.failed, TransactionStatus.failed => true
  | TransactionStatus.cancelled, TransactionStatus.cancelled => true
  | _, _ => false
  end.

(** [transactions.list] *)
Definition list_ (ctx : Context) (input : ListInput) : Async (Reply ListReply) :=
  tryCatch
    (transactions <- db.getUserTransactions (ctx_user_id ctx) (limit input)
                                            (offset input) ;;
     let filtered := transactions in
     let filtered :=
       match type_ input with
       | Some ty => filter (fun t => typeEqb (Transaction.transactionType t) ty)
                           filtered
       | None => filtered
       end in
     let filtered :=
       match l_status input with
       | Some st => filter (fun t => statusEqb (Transaction.status t) st) filtered
       | None => filtered
       end in
     ret (Success (mkListReply filtered (List.length filtered))))
    (fun _ => ret (Failure "Failed to retrieve transactions")).

(** [transactions.getById] *)
Definition getById (ctx : Context) (transactionId : Z)
  : Async (Reply Transaction.t) :=
  tryCatch
    (transactions <- db.getUserTransactions (ctx_user_id ctx) 1000 0 ;;
     let transaction :=
       find (fun t => Transaction.id t =? transactionId) transactions in
     match transaction with
     | None => ret (Failure "Transaction not found")
     | Some t => ret (Success t)
     end)
    (fun _ => ret (Failure "Failed to retrieve transaction")).

End transactionsRouter.

(* ================================================================== *)
(** ** server/routers/wallets.ts *)

Module walletsRouter.

(** The input of [create]; the schema admits currency codes of 1 to 10
    characters, and the procedure body runs on admitted inputs only. *)
Record CreateInput := mkCreateInput {
  currencyCode : string;
  address : option string
}.

Definition create (ctx : Context) (input : CreateInput) : Async (Reply string) :=
  tryCatch
    (existingWallets <- db.getUserWallets (ctx_user_id ctx) ;;
     let exists_ :=
       existsb (fun w => String.eqb (Wallet.currencyCode w) (currencyCode input))
               existingWallets in
     if exists_
     then ret (Failure ("Wallet for " ++ currencyCode input ++ " already exists"))
     else
       db.createWallet (ctx_user_id ctx) (currencyCode input) (address input) ;;;
       ret (Success (currencyCode input ++ " wallet created successfully")))
    (fun _ => ret (Failure "Failed to create wallet")).

(** An entry of the distribution; [percentage] is a JavaScript number. *)
Record DistributionEntry := mkEntry {
  currency : string;
  balance : Z;
  percentage : JS.number
}.

(** [wallets.reduce((sum, wallet) => sum + parseFloat(wallet.balance), 0)] *)
Definition totalValue (wallets : list Wallet.t) : JS.number :=
  fold_left (fun sum wallet => JS.add sum (JS.parseFloat (Wallet.balance wallet)))
            wallets 0%Q.

Definition distributionEntry (totalValue : JS.number) (wallet : Wallet.t)
  : DistributionEntry :=
  mkEntry (Wallet.currencyCode wallet) (Wallet.balance wallet)
          (JS.mul (JS.div (JS.parseFloat (Wallet.balance wallet)) totalValue)
                  100%Q).

Definition getDistribution (ctx : Context) : Async (Reply (list DistributionEntry)) :=
  tryCatch
    (wallets <- db.getUserWallets (ctx_user_id ctx) ;;
     let totalValue := totalValue wallets in
     if JS.isZero totalValue
     then ret (Success [])
     else ret (Success (map (distributionEntry totalValue) wallets)))
    (fun _ => ret (Failure "Failed to calculate distribution")).

(** [wallets.list] *)
Definition list_ (ctx : Context) : Async (Reply (list Wallet.t)) :=
  tryCatch
    (wallets <- db.getUserWallets (ctx_user_id ctx) ;;
     ret (Success wallets))
    (fun _ => ret (Failure "Failed to retrieve wallets")).

(** [wallets.getById] *)
Definition getById (ctx : Context) (walletId : Z) : Async (Reply Wallet.t) :=
  tryCatch
    (wallet <- db.getWalletById walletId ;;
     match wallet with
     | None => ret (Failure "Wallet not found")
     | Some w =>
       if negb (Wallet.userId w =? ctx_user_id ctx)
       then ret (Failure "Wallet not found")
       else ret (Success w)
     end)
    (fun _ => ret (Failure "Failed to retrieve wallet")).

Record BalanceReply := mkBalanceReply {
  b_balance : Z;
  b_currency : string
}.

(** [wallets.getBalance] *)
Definition getBalance (ctx : Context) (walletId : Z) : Async (Reply BalanceReply) :=
  tryCatch
    (wallet <- db.getWalletById walletId ;;
     match wallet with
     | None => ret (Failure "Wallet not found")
     | Some w =>
       if negb (Wallet.userId w =? ctx_user_id ctx)
       then ret (Failure "Wallet not found")
       else ret (Success (mkBalanceReply (Wallet.balance w) (Wallet.currencyCode w)))
     end)
    (fun _ => ret (Failure "Failed to retrieve balance")).

Record PortfolioReply := mkPortfolioReply {
  p_totalValue : JS.number;
  p_currency : string
}.

(** [wallets.getPortfolioValue]; its [reduce] is the one of
    [getDistribution]. *)
Definition getPortfolioValue (ctx : Context) (baseCurrency : string)
  : Async (Reply PortfolioReply) :=
  tryCatch
    (wallets <- db.getUserWallets (ctx_user_id ctx) ;;
     let totalValue :=
       fold_left (fun sum wallet =>
                    let balance := JS.parseFloat (Wallet.balance wallet) in
                    JS.add sum balance)
                 wallets 0%Q in
     ret (Success (mkPortfolioReply totalValue baseCurrency)))
    (fun _ => ret (Failure "Failed to calculate portfolio value")).

End walletsRouter.

(* ================================================================== *)
(** ** server/routers/crypto.ts *)

Module cryptoRouter.

(** [z.enum(["BTC", "ETH"])] *)
Inductive Cryptocurrency := BTC | ETH.

Definition code (c : Cryptocurrency) : string :=
  match c with
  | BTC => "BTC"
  | ETH => "ETH"
  end.

Definition mockAddress (c : Cryptocurrency) : string :=
  match c with
  | BTC => "1A1z7agoat4FqCnf4Xy2MQUqLCWCuqq2em"
  | ETH => "0x742d35Cc6634C0532925a3b844Bc9e7595f42bE"
  end.

Record AddressReply := mkAddressReply {
  a_address : string;
  a_cryptocurrency : Cryptocurrency
}.

Definition generateAddress (ctx : Context) (cryptocurrency : Cryptocurrency)
  : Async (Reply AddressReply) :=
  tryCatch
    (existingWallets <- db.getUserWallets (ctx_user_id ctx) ;;
     let isCrypto := fun w => String.eqb (Wallet.currencyCode w) (code cryptocurrency) in
     if existsb isCrypto existingWallets
     then
       let wallet := find isCrypto existingWallets in
       ret (Success (mkAddressReply
                       (orDefault (match wallet with
                                   | Some w => Wallet.address w
                                   | None => None
                                   end)
                                  "1A1z7agoat4FqCnf4Xy2MQUqLCWCuqq2em")
                       cryptocurrency))
     else
       db.createWallet (ctx_user_id ctx) (code cryptocurrency)
                       (Some (mockAddress cryptocurrency)) ;;;
       ret (Success (mkAddressReply (mockAddress cryptocurrency) cryptocurrency)))
    (fun _ => ret (Failure "Failed to generate address")).

Record WithdrawalInput := mkWithdrawalInput {
  cryptocurrency : Cryptocurrency;
  amount : Z;
  destinationAddress : string
}.

Record WithdrawalReply := mkWithdrawalReply {
  message : string;
  status : TransactionStatus.t;
  w_cryptocurrency : Cryptocurrency
}.

(** The mock fee ["0.0005"], in units of 10^-8. *)
Definition mockFee : Z := 50000.

Definition initiateData (ctx : Context) (input : WithdrawalInput) (wallet : Wallet.t)
  : InsertTransaction.t :=
  InsertTransaction.mk
    (Some (ctx_user_id ctx)) None
    (Wallet.id wallet) (Some (Wallet.id wallet))
    (amount input) (Some mockFee) TransactionType.withdrawal
    (Some TransactionStatus.pending)
    None
    (Some ("Withdrawal to " ++ substring 0 10 (destinationAddress input) ++ "...")).

Definition initiateWithdrawal (ctx : Context) (input : WithdrawalInput)
  : Async (Reply WithdrawalReply) :=
  tryCatch
    (wallets <- db.getUserWallets (ctx_user_id ctx) ;;
     let wallet :=
       find (fun w => String.eqb (Wallet.currencyCode w) (code (cryptocurrency input)))
            wallets in
     match wallet with
     | None => ret (Failure "Wallet not found")
     | Some w =>
       let balance := JS.parseFloat (Wallet.balance w) in
       let amount := JS.parseFloat (amount input) in
       if JS.ltb balance amount
       then ret (Failure "Insufficient balance")
       else
         db.createTransaction (initiateData ctx input w) ;;;
         ret (Success (mkWithdrawalReply "Withdrawal initiated successfully"
                                         TransactionStatus.pending
                                         (cryptocurrency input)))
     end)
    (fun _ => ret (Failure "Failed to initiate withdrawal")).

Record CryptoBalanceReply := mkCryptoBalanceReply {
  cb_cryptocurrency : Cryptocurrency;
  cb_balance : Z;
  cb_address : option string
}.

(** [crypto.getBalance] *)
Definition getBalance (ctx : Context) (cryptocurrency : Cryptocurrency)
  : Async (Reply CryptoBalanceReply) :=
  tryCatch
    (wallets <- db.getUserWallets (ctx_user_id ctx) ;;
     let wallet :=
       find (fun w => String.eqb (Wallet.currencyCode w) (code cryptocurrency))
            wallets in
     match wallet with
     | None => ret (Failure "Wallet not found")
     | Some w =>
       ret (Success (mkCryptoBalanceReply cryptocurrency (Wallet.balance w)
                                          (Wallet.address w)))
     end)
    (fun _ => ret (Failure "Failed to retrieve balance")).

End cryptoRouter.

(* ================================================================== *)
(** ** The exchange rates: server/db.ts and server/routers/exchange.ts *)

Module ExchangeRate.
(** A row of the [exchangeRates] table. *)
Record t := mk {
  id : Z;
  fromCurrency : string;
  toCurrency : string;
  rate : Z;
  source : option string
}.
End ExchangeRate.

(** The database with its table of exchange rates beside the ledger; the
    handle of [getDb] is the one of the ledger.  SQL [=] on two varchar
    values compares their weight strings under the collation of the
    database; [collation] gives the weight string of a value (the deployment
    guide creates the database with a case-insensitive collation). *)
Record Database := mkDatabase {
  ledger : Store;
  collation : string -> string;
  exchangeRateRows : list ExchangeRate.t;
  exchangeRateSeq : Z
}.

Module exchange.

Definition AsyncDb (A : Type) : Type := Database -> Outcome A * Database.

Definition retDb {A} (a : A) : AsyncDb A := fun d => (Returned a, d).

Definition bindDb {A B} (m : AsyncDb A) (k : A -> AsyncDb B) : AsyncDb B :=
  fun d =>
    match m d with
    | (Returned a, d') => k a d'
    | (Thrown e, d') => (Thrown e, d')
    end.

Definition tryCatchDb {A} (body : AsyncDb A) (handler : string -> AsyncDb A)
  : AsyncDb A :=
  fun d =>
    match body d with
    | (Returned a, d') => (Returned a, d')
    | (Thrown e, d') => handler e d'
    end.

(** The prologue [const db = await getDb(); if (!db) throw ...]. *)
Definition requireDb : AsyncDb unit :=
  fun d =>
    if connected (ledger d)
    then (Returned tt, d)
    else (Thrown "Database not available", d).

(** SQL [=] on varchar values, under the collation with weights [weight]. *)
Definition sqlEq (weight : string -> string) (a b : string) : bool :=
  String.eqb (weight a) (weight b).

(** The [where] of [getExchangeRate] and of the update. *)
Definition isPair (weight : string -> string) (fromCurrency toCurrency : string)
           (r : ExchangeRate.t) : bool :=
  sqlEq weight (ExchangeRate.fromCurrency r) fromCurrency
  && sqlEq weight (ExchangeRate.toCurrency r) toCurrency.

(** [getExchangeRate] of db.ts *)
Definition getExchangeRate (fromCurrency toCurrency : string)
  : AsyncDb (option ExchangeRate.t) :=
  bindDb requireDb (fun _ =>
  fun d =>
    (Returned (find (isPair (collation d) fromCurrency toCurrency)
                    (exchangeRateRows d)), d)).

Definition setRate (weight : string -> string) (fromCurrency toCurrency : string)
           (rate : Z) (source : string) (r : ExchangeRate.t) : ExchangeRate.t :=
  if isPair weight fromCurrency toCurrency r
  then ExchangeRate.mk (ExchangeRate.id r) (ExchangeRate.fromCurrency r)
                       (ExchangeRate.toCurrency r) rate (Some source)
  else r.

(** [upsertExchangeRate] of db.ts *)
Definition upsertExchangeRate (fromCurrency toCurrency : string) (rate : Z)
           (source : string) : AsyncDb unit :=
  bindDb requireDb (fun _ =>
  bindDb (getExchangeRate fromCurrency toCurrency) (fun existing =>
  match existing with
  | Some _ =>
    fun d =>
      (Returned tt,
       mkDatabase (ledger d) (collation d)
                  (map (setRate (collation d) fromCurrency toCurrency rate source)
                       (exchangeRateRows d))
                  (exchangeRateSeq d))
  | None =>
    fun d =>
      (Returned tt,
       mkDatabase (ledger d) (collation d)
                  (exchangeRateRows d ++
                     [ExchangeRate.mk (exchangeRateSeq d) fromCurrency toCurrency
                                      rate (Some source)])
                  (exchangeRateSeq d + 1))
  end)).

Record RateReply := mkRateReply {
  r_from : string;
  r_to : string;
  r_rate : Z;
  r_source : option string
}.

(** The mock rate ["1.0"], in units of 10^-8. *)
Definition mockRate : Z := 100000000.

(** [exchange.getRate] *)
Definition getRate (from to : string) : AsyncDb (Reply RateReply) :=
  tryCatchDb
    (bindDb (getExchangeRate from to) (fun rate =>
     match rate with
     | None => retDb (Success (mkRateReply from to mockRate (Some "mock")))
     | Some r =>
       retDb (Success (mkRateReply from to (ExchangeRate.rate r)
                                   (ExchangeRate.source r)))
     end))
    (fun _ => retDb (Failure "Failed to retrieve exchange rate")).

Record ConvertReply := mkConvertReply {
  c_amount : Z;
  c_from : string;
  c_to : string;
  c_convertedAmount : Z;
  c_rate : Z
}.

(** [exchange.convert] *)
Definition convert (amount : Z) (from to : string) : AsyncDb (Reply ConvertReply) :=
  tryCatchDb
    (bindDb (getExchangeRate from to) (fun rate =>
     match rate with
     | None => retDb (Success (mkConvertReply amount from to amount mockRate))
     | Some r =>
       let amount' := JS.parseFloat amount in
       let rateValue := JS.parseFloat (ExchangeRate.rate r) in
       let convertedAmount := JS.toFixed8 (JS.mul amount' rateValue) in
       retDb (Success (mkConvertReply amount from to convertedAmount
                                      (ExchangeRate.rate r)))
     end))
    (fun _ => retDb (Failure "Failed to convert currency")).

(** [exchange.updateRate] *)
Definition updateRate (from to : string) (rate : Z) (source : option string)
  : AsyncDb (Reply string) :=
  tryCatchDb
    (bindDb (upsertExchangeRate from to rate (orDefault source "manual")) (fun _ =>
     retDb (Success "Exchange rate updated successfully")))
    (fun _ => retDb (Failure "Failed to update exchange rate")).

Definition fiatCurrencies : list string := ["USD"; "EUR"; "GBP"; "JPY"; "CAD"; "AUD"].
Definition cryptoCurrencies : list string := ["BTC"; "ETH"; "LTC"; "XRP"].

(** The first pair of loops of [getSupportedPairs]. *)
Definition crossPairs (fiats cryptos : list string) : list (string * string) :=
  flat_map (fun fiat =>
              flat_map (fun crypto => [(crypto, fiat); (fiat, crypto)]) cryptos)
           fiats.

(** The second pair of loops: [i] over the list, [j] over what follows [i]. *)
Fixpoint fiatPairs (fiats : list string) : list (string * string) :=
  match fiats with
  | [] => []
  | fi :: rest =>
    (flat_map (fun fj => [(fi, fj); (fj, fi)]) rest ++ fiatPairs rest)%list
  end.

Record PairsReply := mkPairsReply {
  pairs : list (string * string);
  pairs_total : nat
}.

(** [exchange.getSupportedPairs] *)
Definition getSupportedPairs : Reply PairsReply :=
  let pairs :=
    (crossPairs fiatCurrencies cryptoCurrencies ++ fiatPairs fiatCurrencies)%list in
  Success (mkPairsReply pairs (List.length pairs)).

End exchange.

(* ================================================================== *)
(** ** Requests served one after the other *)

(** A call of one of the mutating procedures, with its authenticated caller. *)
Inductive Request :=
| Transfer (ctx : Context) (input : transactionsRouter.TransferInput)
| RecordDeposit (ctx : Context) (input : transactionsRouter.RecordInput)
| RecordWithdrawal (ctx : Context) (input : transactionsRouter.RecordInput)
| InitiateWithdrawal (ctx : Context) (input : cryptoRouter.WithdrawalInput)
| CreateWallet (ctx : Context) (input : walletsRouter.CreateInput)
| GenerateAddress (ctx : Context) (cryptocurrency : cryptoRouter.Cryptocurrency).

(** The store a request leaves behind. *)
Definition serve (r : Request) (s : Store) : Store :=
  match r with
  | Transfer ctx input => snd (transactionsRouter.transfer ctx input s)
  | RecordDeposit ctx input => snd (transactionsRouter.recordDeposit ctx input s)
  | RecordWithdrawal ctx input => snd (transactionsRouter.recordWithdrawal ctx input s)
  | InitiateWithdrawal ctx input => snd (cryptoRouter.initiateWithdrawal ctx input s)
  | CreateWallet ctx input => snd (walletsRouter.create ctx input s)
  | GenerateAddress ctx c => snd (cryptoRouter.generateAddress ctx c s)
  end.

Definition serveAll (rs : list Request) (s : Store) : Store :=
  fold_left (fun s r => serve r s) rs s.

(** The amount a request carries (0 for the requests without one). *)
Definition requestAmount (r : Request) : Z :=
  match r with
  | Transfer _ input => transactionsRouter.amount input
  | RecordDeposit _ input => transactionsRouter.r_amount input
  | RecordWithdrawal _ input => transactionsRouter.r_amount input
  | InitiateWithdrawal _ input => cryptoRouter.amount input
  | CreateWallet _ _ => 0
  | GenerateAddress _ _ => 0
  end.

(** What [getWalletById] reads, as a function of the store. *)
Definition walletById (s : Store) (walletId : Z) : option Wallet.t :=
  find (fun w => Wallet.id w =? walletId) (walletRows s).

Definition balanceOf (s : Store) (walletId : Z) : option Z :=
  option_map Wallet.balance (walletById s walletId).

(** 5000000.00000000, in units of 10^-8: on balances and amounts up to it
    in magnitude the arithmetic of the ledger on doubles is exact. *)
Definition exactBound : Z := 500000000000000.

(** The unit roundoff of the doubles, 2^-53: rounding moves a number by at
    most this part of it. *)
Definition unitRoundoff : Q := 1 # 9007199254740992.

(** The balance a debit and a credit leave in the column: the string of the
    double difference, respectively sum, written to [decimal(18,8)]. *)
Definition debited (balance amount : Z) : Z :=
  db.decimal (JS.toString (JS.sub (JS.parseFloat balance) (JS.parseFloat amount))).

Definition credited (balance amount : Z) : Z :=
  db.decimal (JS.toString (JS.add (JS.parseFloat balance) (JS.parseFloat amount))).

(** Every wallet row has a balance of at least 0. *)
Definition nonNegative (s : Store) : Prop :=
  Forall (fun w => 0 <= Wallet.balance w) (walletRows s).


(** Two rows that differ in the balance at most. *)
Definition sameWallet (w w' : Wallet.t) : Prop :=
  Wallet.id w' = Wallet.id w /\
  Wallet.userId w' = Wallet.userId w /\
  Wallet.currencyCode w' = Wallet.currencyCode w /\
  Wallet.address w' = Wallet.address w /\
  Wallet.isActive w' = Wallet.isActive w.

(** The (owner, currency) pairs of the wallet rows. *)
Definition ownerCurrency (w : Wallet.t) : Z * string :=
  (Wallet.userId w, Wallet.currencyCode w).

Definition ownerCurrencies (s : Store) : list (Z * string) :=
  map ownerCurrency (walletRows s).

(** The wallet rows after a request are the rows before it, or these with
    one or two balance updates, or these with one fresh row of balance 0
    whose (owner, currency) pair was absent.  [amountOk] stands for the
    request's amount being at least 0; under it, and on a store without
    negative balances, the balances written are at least 0. *)
Definition Effect (s : Store) (amountOk : Prop) (rows' : list Wallet.t) : Prop :=
  rows' = walletRows s
  \/ (exists k v,
         rows' = map (db.setBalance k v) (walletRows s) /\
         (amountOk -> nonNegative s -> 0 <= v))
  \/ (exists k1 v1 k2 v2,
         rows' = map (db.setBalance k2 v2) (map (db.setBalance k1 v1) (walletRows s)) /\
         (amountOk -> nonNegative s -> 0 <= v1 /\ 0 <= v2))
  \/ (exists i u c a,
         rows' = (walletRows s ++ [Wallet.mk i u c 0 a true])%list /\
         ~ In (u, c) (ownerCurrencies s)).

(* ================================================================== *)
(** ** Transfers in flight

    A request handler gives up control at each [await]; between two awaits it
    runs alone.  [transferTask.step] runs [transactions.transfer] from one
    [await] of a database call to the next, so that several transfers in
    flight can be interleaved.  (The [await getDb()] inside each database
    function touches no row and needs no step of its own.) *)

Module transferTask.

Import transactionsRouter.

Inductive State :=
| Start
| HaveFrom (fromWallet : Wallet.t)
| Validated (fromWallet toWallet : Wallet.t)
| Recorded (fromWallet toWallet : Wallet.t)
| Debited (fromWallet toWallet : Wallet.t)
| Finished (reply : Reply string).

(** One awaited call inside the [try] block. *)
Definition awaited {A} (call : Async A) (k : A -> State) : Store -> State * Store :=
  fun s =>
    match call s with
    | (Returned a, s') => (k a, s')
    | (Thrown _, s') => (Finished (Failure "Transfer failed"), s')
    end.

Definition step (ctx : Context) (input : TransferInput) (st : State)
  : Store -> State * Store :=
  match st with
  | Start =>
    awaited (db.getWalletById (fromWalletId input))
      (fun fromWallet =>
         match fromWallet with
         | None => Finished (Failure "Invalid source wallet")
         | Some fw =>
           if negb (Wallet.userId fw =? ctx_user_id ctx)
           then Finished (Failure "Invalid source wallet")
           else HaveFrom fw
         end)
  | HaveFrom fw =>
    awaited (db.getWalletById (toWalletId input))
      (fun toWallet =>
         match toWallet with
         | None => Finished (Failure "Invalid destination wallet")
         | Some tw =>
           if JS.ltb (JS.parseFloat (Wallet.balance fw))
                     (JS.parseFloat (amount input))
           then Finished (Failure "Insufficient balance")
           else Validated fw tw
         end)
  | Validated fw tw =>
    awaited (db.createTransaction (transferData ctx input))
      (fun _ => Recorded fw tw)
  | Recorded fw tw =>
    awaited (db.updateWalletBalance
               (fromWalletId input)
               (JS.toString (JS.sub (JS.parseFloat (Wallet.balance fw))
                                    (JS.parseFloat (amount input)))))
      (fun _ => Debited fw tw)
  | Debited fw tw =>
    awaited (db.updateWalletBalance
               (toWalletId input)
               (JS.toString (JS.add (JS.parseFloat (Wallet.balance tw))
                                    (JS.parseFloat (amount input)))))
      (fun _ => Finished (Success "Transfer completed successfully"))
  | Finished r => fun s => (Finished r, s)
  end.

(** A handler run alone for [n] steps. *)
Fixpoint steps (n : nat) (ctx : Context) (input : TransferInput) (st : State)
         (s : Store) : State * Store :=
  match n with
  | O => (st, s)
  | S n' => let (st', s') := step ctx input st s in steps n' ctx input st' s'
  end.

Record Task := mkTask {
  task_ctx : Context;
  task_input : TransferInput;
  task_state : State
}.

Definition spawn (ctx : Context) (input : TransferInput) : Task :=
  mkTask ctx input Start.

(** The [n]-th task in flight makes one step. *)
Fixpoint stepTask (n : nat) (tasks : list Task) (s : Store) : list Task * Store :=
  match tasks with
  | [] => ([], s)
  | t :: rest =>
    match n with
    | O =>
      let (st', s') := step (task_ctx t) (task_input t) (task_state t) s in
      (mkTask (task_ctx t) (task_input t) st' :: rest, s')
    | S n' =>
      let (rest', s') := stepTask n' rest s in
      (t :: rest', s')
    end
  end.

(** The tasks run under a schedule: the list of the tasks stepped, in order. *)
Definition interleave (schedule : list nat) (tasks : list Task) (s : Store)
  : list Task * Store :=
  fold_left (fun (cfg : list Task * Store) n => stepTask n (fst cfg) (snd cfg))
            schedule (tasks, s).

End transferTask.

(** [wallets.create] in flight: the handler awaits [getUserWallets], then
    [createWallet]. *)
Module createTask.

Import walletsRouter.

Inductive State :=
| Start
| Checked
| Finished (reply : Reply string).

Definition awaited {A} (call : Async A) (k : A -> State) : Store -> State * Store :=
  fun s =>
    match call s with
    | (Returned a, s') => (k a, s')
    | (Thrown _, s') => (Finished (Failure "Failed to create wallet"), s')
    end.

Definition step (ctx : Context) (input : CreateInput) (st : State)
  : Store -> State * Store :=
  match st with
  | Start =>
    awaited (db.getUserWallets (ctx_user_id ctx))
      (fun existingWallets =>
         if existsb (fun w => String.eqb (Wallet.currencyCode w) (currencyCode input))
                    existingWallets
         then Finished (Failure ("Wallet for " ++ currencyCode input
                                               ++ " already exists"))
         else Checked)
  | Checked =>
    awaited (db.createWallet (ctx_user_id ctx) (currencyCode input) (address input))
      (fun _ => Finished (Success (currencyCode input
                                     ++ " wallet created successfully")))
  | Finished r => fun s => (Finished r, s)
  end.

Fixpoint steps (n : nat) (ctx : Context) (input : CreateInput) (st : State)
         (s : Store) : State * Store :=
  match n with
  | O => (st, s)
  | S n' => let (st', s') := step ctx input st s in steps n' ctx input st' s'
  end.

Record Task := mkTask {
  task_ctx : Context;
  task_input : CreateInput;
  task_state : State
}.

Definition spawn (ctx : Context) (input : CreateInput) : Task :=
  mkTask ctx input Start.

Fixpoint stepTask (n : nat) (tasks : list Task) (s : Store) : list Task * Store :=
  match tasks with
  | [] => ([], s)
  | t :: rest =>
    match n with
    | O =>
      let (st', s') := step (task_ctx t) (task_input t) (task_state t) s in
      (mkTask (task_ctx t) (task_input t) st' :: rest, s')
    | S n' =>
      let (rest', s') := stepTask n' rest s in
      (t :: rest', s')
    end
  end.

Definition interleave (schedule : list nat) (tasks : list Task) (s : Store)
  : list Task * Store :=
  fold_left (fun (cfg : list Task * Store) n => stepTask n (fst cfg) (snd cfg))
            schedule (tasks, s).

End createTask.

(* ================================================================== *)
(** ** Example ledgers

    Amounts are in units of 10^-8: [10000000000] is 100.00000000. *)

Definition alice : Context := mkContext 1.
Definition bob : Context := mkContext 2.

(** Alice owns wallet 1 (USD, 100), Bob owns wallet 2 (USD, 0). *)
Definition ledger100 : Store :=
  mkStore true
          [Wallet.mk 1 1 "USD" 10000000000 None true;
           Wallet.mk 2 2 "USD" 0 None true]
          [] 3 1.

(** The same ledger with both wallets deactivated. *)
Definition ledgerInactive : Store :=
  mkStore true
          [Wallet.mk 1 1 "USD" 10000000000 None false;
           Wallet.mk 2 2 "USD" 0 None false]
          [] 3 1.

(** Alice owns a BTC wallet holding 1.00000000 and a USD wallet holding 3. *)
Definition ledgerCrypto : Store :=
  mkStore true
          [Wallet.mk 1 1 "BTC" 100000000 (Some "1A1z7agoat4FqCnf4Xy2MQUqLCWCuqq2em") true;
           Wallet.mk 2 1 "USD" 300000000 None true]
          [] 3 1.

(** 80.00000000 from wallet 1 to wallet 2, naming Bob as the receiver. *)
Definition send80 : transactionsRouter.TransferInput :=
  transactionsRouter.mkTransferInput 2 1 2 8000000000 None.



(** 30.00000000 from wallet 1 to wallet 2 (Bob's), naming user 7 as the
    receiver. *)
Definition sendMisnamed : transactionsRouter.TransferInput :=
  transactionsRouter.mkTransferInput 7 1 2 3000000000 None.

(** Half a bitcoin, to an outside address. *)
Definition withdrawHalf : cryptoRouter.WithdrawalInput :=
  cryptoRouter.mkWithdrawalInput cryptoRouter.BTC 50000000
                                 "bc1qar0srrr7xfkvy5l643lydnw9re59gtzzwf5mdq".

(** Alice opens a USD wallet and records a deposit of -5.00000000 on it. *)
Definition openAndDepositMinus5 : list Request :=
  [CreateWallet alice (walletsRouter.mkCreateInput "USD" None);
   RecordDeposit alice (transactionsRouter.mkRecordInput 1 (-500000000) None None)].

(** Alice opens a USD wallet, deposits 100, withdraws 30, asks for 200 more,
    and sends 50 to the wallet Bob opened. *)
Definition openDepositSpend : list Request :=
  [CreateWallet alice (walletsRouter.mkCreateInput "USD" None);
   CreateWallet bob (walletsRouter.mkCreateInput "USD" None);
   RecordDeposit alice (transactionsRouter.mkRecordInput 1 10000000000 None None);
   RecordWithdrawal alice (transactionsRouter.mkRecordInput 1 3000000000 None None);
   RecordWithdrawal alice (transactionsRouter.mkRecordInput 1 20000000000 None None);
   Transfer alice (transactionsRouter.mkTransferInput 2 1 2 5000000000 None)].



(** Alice asks for a EUR wallet. *)
Definition openEUR : walletsRouter.CreateInput :=
  walletsRouter.mkCreateInput "EUR" None.

(** Two wallet creations in flight: both look for a wallet before either
    inserts one. *)
Definition bothCheckFirst : list nat := [0; 1; 0; 1]%nat.

(** The first creation runs to its end before the second starts. *)
Definition createInTurn : list nat := [0; 0; 1; 1]%nat.

(** Alice's wallet holds 67108864.00000001. *)
Definition ledgerCollide : Store :=
  mkStore true
          [Wallet.mk 1 1 "USD" 6710886400000001 None true;
           Wallet.mk 2 2 "USD" 0 None true]
          [] 3 1.

(** 67108864.00000002 from wallet 1 to wallet 2: one unit more than wallet 1
    holds in [ledgerCollide]. *)
Definition sendOneUnitMore : transactionsRouter.TransferInput :=
  transactionsRouter.mkTransferInput 2 1 2 6710886400000002 None.



(** Alice's wallets hold 0.1, 0.2 and -0.3. *)
Definition ledgerTenths : Store :=
  mkStore true
          [Wallet.mk 1 1 "USD" 10000000 None true;
           Wallet.mk 2 1 "EUR" 20000000 None true;
           Wallet.mk 3 1 "GBP" (-30000000) None true]
          [] 4 1.

(** Alice's wallets hold 1 and 2. *)
Definition ledgerThirds : Store :=
  mkStore true
          [Wallet.mk 1 1 "USD" 100000000 None true;
           Wallet.mk 2 1 "EUR" 200000000 None true]
          [] 3 1.

(** Lower case of the letters A to Z. *)
Definition lowerAscii (c : Ascii.ascii) : Ascii.ascii :=
  let n := Ascii.nat_of_ascii c in
  if ((65 <=? n) && (n <=? 90))%nat then Ascii.ascii_of_nat (n + 32) else c.

Fixpoint lower (s : string) : string :=
  match s with
  | EmptyString => EmptyString
  | String c rest => String (lowerAscii c) (lower rest)
  end.

(** A collation that tells all strings apart, and one that ignores the case
    of the letters A to Z, as a case-insensitive collation does on them. *)
Definition binary (s : string) : string := s.
Definition caseInsensitive (s : string) : string := lower s.

(* ================================================================== *)
(** ** Rounding to doubles: order and sign *)

Section Doubles.

Import JS.

Lemma rne_cases (q : Q) :
  (rne q = Qfloor q) \/ (rne q = Qfloor q + 1 /\ (inject_Z (Qfloor q) < q)%Q).
Proof.
  unfold rne. destruct (Qcompare_spec (q - inject_Z (Qfloor q)) (1 # 2)) as [H|H|H].
  - destruct (Z.even (Qfloor q)); [now left|]. right. split; [reflexivity|]. lra.
  - now left.
  - right. split; [reflexivity|]. lra.
Qed.

Lemma rne_ge_floor (q : Q) : Qfloor q <= rne q.
Proof. destruct (rne_cases q) as [H|[H _]]; lia. Qed.

Lemma rne_le_of_le (q : Q) (n : Z) : (q <= inject_Z n)%Q -> rne q <= n.
Proof.
  intros H. pose proof (Qfloor_le q) as Hf.
  destruct (rne_cases q) as [E|[E Hlt]]; rewrite E.
  - assert (inject_Z (Qfloor q) <= inject_Z n)%Q by lra.
    now rewrite <- Zle_Qle in H0.
  - assert (inject_Z (Qfloor q) < inject_Z n)%Q by lra.
    rewrite <- Zlt_Qlt in H0. lia.
Qed.

Lemma rne_ge_of_ge (q : Q) (n : Z) : (inject_Z n <= q)%Q -> n <= rne q.
Proof.
  intros H. apply Qfloor_resp_le in H. rewrite Qfloor_Z in H.
  pose proof (rne_ge_floor q). lia.
Qed.

Lemma rne_mono (p q : Q) : (p <= q)%Q -> rne p <= rne q.
Proof.
  intros H. pose proof (Qfloor_resp_le _ _ H) as Hf.
  destruct (Z.eq_dec (Qfloor p) (Qfloor q)) as [E|E].
  - unfold rne. rewrite E.
    destruct (Qcompare_spec (p - inject_Z (Qfloor q)) (1 # 2)) as [H1|H1|H1];
      destruct (Qcompare_spec (q - inject_Z (Qfloor q)) (1 # 2)) as [H2|H2|H2];
      try destruct (Z.even (Qfloor q)); try lia; exfalso; lra.
  - assert (Qfloor p + 1 <= Qfloor q) by lia.
    pose proof (rne_ge_floor q).
    destruct (rne_cases p) as [E1|[E1 _]]; lia.
Qed.

Local Open Scope Q_scope.

Lemma pow2_pos (k : Z) : 0 < 2 ^ k.
Proof. apply Qpower_0_lt. reflexivity. Qed.

Lemma pow2_inject (n : Z) : (0 <= n)%Z -> inject_Z (2 ^ n) == 2 ^ n.
Proof. intros H. now rewrite Zpower_Qpower. Qed.

Lemma pow2_le (a b : Z) : (a <= b)%Z -> 2 ^ a <= 2 ^ b.
Proof. intros H. apply Qpower_le_compat_l; [exact H | discriminate]. Qed.

Lemma pow2_plus (a b : Z) : 2 ^ (a + b) == 2 ^ a * 2 ^ b.
Proof. apply Qpower_plus. discriminate. Qed.

Lemma pow2_minus (a b : Z) : 2 ^ (a - b) == 2 ^ a / 2 ^ b.
Proof. apply Qpower_minus. discriminate. Qed.

Lemma div_lt_div (x y z w : Q) :
  0 < y -> 0 < w -> x * w < z * y -> x / y < z / w.
Proof.
  intros Hy Hw H. apply Qlt_shift_div_r; [exact Hy|].
  setoid_replace (z / w * y) with (z * y / w) by (field; lra).
  apply Qlt_shift_div_l; assumption.
Qed.

Lemma ilog2_bounds (q : Q) :
  0 < q ->
  2 ^ (Z.log2 (Qnum q) - Z.log2 (Zpos (Qden q)) - 1) < q /\
  q < 2 ^ (Z.log2 (Qnum q) - Z.log2 (Zpos (Qden q)) + 1).
Proof.
  destruct q as [a b]. intros Hq. simpl Qnum. simpl Qden.
  assert (Ha : (0 < a)%Z).
  { unfold Qlt in Hq. simpl in Hq. lia. }
  pose proof (Z.log2_spec a Ha) as [Ha1 Ha2].
  pose proof (Z.log2_spec (Zpos b) (Pos2Z.is_pos b)) as [Hb1 Hb2].
  pose proof (Z.log2_nonneg a) as Hla.
  pose proof (Z.log2_nonneg (Zpos b)) as Hlb.
  set (la := Z.log2 a) in *. set (lb := Z.log2 (Zpos b)) in *.
  assert (Hpa : (0 < 2 ^ la)%Z) by (apply Z.pow_pos_nonneg; lia).
  assert (Hpb : (0 < 2 ^ lb)%Z) by (apply Z.pow_pos_nonneg; lia).
  rewrite (Qmake_Qdiv a b). split.
  - replace (la - lb - 1)%Z with (la - (lb + 1))%Z by lia.
    rewrite pow2_minus, <- !pow2_inject by lia.
    apply div_lt_div.
    + rewrite <- (Z.succ_pred (lb + 1)).
      change 0 with (inject_Z 0). rewrite <- Zlt_Qlt. apply Z.pow_pos_nonneg; lia.
    + change 0 with (inject_Z 0). rewrite <- Zlt_Qlt. reflexivity.
    + rewrite <- !inject_Z_mult, <- Zlt_Qlt.
      replace (lb + 1)%Z with (Z.succ lb) by lia. nia.
  - replace (la - lb + 1)%Z with ((la + 1) - lb)%Z by lia.
    rewrite pow2_minus, <- !pow2_inject by lia.
    apply div_lt_div.
    + change 0 with (inject_Z 0). rewrite <- Zlt_Qlt. reflexivity.
    + change 0 with (inject_Z 0). now rewrite <- Zlt_Qlt.
    + rewrite <- !inject_Z_mult, <- Zlt_Qlt.
      replace (la + 1)%Z with (Z.succ la) by lia. nia.
Qed.

Lemma ilog2_spec (q : Q) :
  0 < q -> 2 ^ ilog2 q <= q /\ q < 2 ^ (ilog2 q + 1).
Proof.
  intros Hq. destruct (ilog2_bounds q Hq) as [Hlo Hhi]. unfold ilog2.
  destruct (Qle_bool _ q) eqn:E.
  - apply Qle_bool_iff in E. split; assumption.
  - split; [now apply Qlt_le_weak|].
    assert (H : ~ 2 ^ (Z.log2 (Qnum q) - Z.log2 (Zpos (Qden q))) <= q).
    { intros H. apply Qle_bool_iff in H. congruence. }
    apply Qnot_le_lt in H.
    now replace (Z.log2 (Qnum q) - Z.log2 (Z.pos (Qden q)) - 1 + 1)%Z
      with (Z.log2 (Qnum q) - Z.log2 (Z.pos (Qden q)))%Z by lia.
Qed.

Lemma ilog2_mono (p q : Q) : 0 < p -> p <= q -> (ilog2 p <= ilog2 q)%Z.
Proof.
  intros Hp Hpq.
  assert (Hq : 0 < q) by lra.
  destruct (ilog2_spec p Hp) as [Hp1 _].
  destruct (ilog2_spec q Hq) as [_ Hq2].
  destruct (Z_le_gt_dec (ilog2 p) (ilog2 q)) as [H|H]; [exact H|].
  exfalso.
  assert (2 ^ (ilog2 q + 1) <= 2 ^ ilog2 p) by (apply pow2_le; lia).
  lra.
Qed.

Lemma roundPositive_eq (q : Q) :
  roundPositive q == inject_Z (rne (q / 2 ^ (ilog2 q - 52))) * 2 ^ (ilog2 q - 52).
Proof. unfold roundPositive. apply Qred_correct. Qed.

Lemma scaled_lower (q : Q) :
  0 < q -> inject_Z (2 ^ 52) <= q / 2 ^ (ilog2 q - 52).
Proof.
  intros Hq. destruct (ilog2_spec q Hq) as [H _].
  apply Qle_shift_div_l; [apply pow2_pos|].
  rewrite pow2_inject by lia. rewrite <- pow2_plus.
  now replace (52 + (ilog2 q - 52))%Z with (ilog2 q) by lia.
Qed.

Lemma scaled_upper (q : Q) :
  0 < q -> q / 2 ^ (ilog2 q - 52) <= inject_Z (2 ^ 53).
Proof.
  intros Hq. destruct (ilog2_spec q Hq) as [_ H].
  apply Qle_shift_div_r; [apply pow2_pos|].
  rewrite pow2_inject by lia. rewrite <- pow2_plus.
  replace (53 + (ilog2 q - 52))%Z with (ilog2 q + 1)%Z by lia.
  now apply Qlt_le_weak.
Qed.

Lemma roundPositive_lower (q : Q) : 0 < q -> 2 ^ ilog2 q <= roundPositive q.
Proof.
  intros Hq. rewrite roundPositive_eq.
  pose proof (rne_ge_of_ge _ _ (scaled_lower q Hq)) as H.
  rewrite Zle_Qle in H. rewrite pow2_inject in H by lia.
  replace (ilog2 q) with (52 + (ilog2 q - 52))%Z at 1 by lia.
  rewrite pow2_plus. apply Qmult_le_compat_r; [exact H|].
  apply Qlt_le_weak, pow2_pos.
Qed.

Lemma roundPositive_upper (q : Q) : 0 < q -> roundPositive q <= 2 ^ (ilog2 q + 1).
Proof.
  intros Hq. rewrite roundPositive_eq.
  pose proof (rne_le_of_le _ _ (scaled_upper q Hq)) as H.
  rewrite Zle_Qle in H. rewrite pow2_inject in H by lia.
  replace (ilog2 q + 1)%Z with (53 + (ilog2 q - 52))%Z by lia.
  rewrite pow2_plus. apply Qmult_le_compat_r; [exact H|].
  apply Qlt_le_weak, pow2_pos.
Qed.

Lemma roundPositive_pos (q : Q) : 0 < q -> 0 < roundPositive q.
Proof.
  intros Hq. pose proof (roundPositive_lower q Hq). pose proof (pow2_pos (ilog2 q)). lra.
Qed.

Lemma roundPositive_mono (p q : Q) :
  0 < p -> p <= q -> roundPositive p <= roundPositive q.
Proof.
  intros Hp Hpq. assert (Hq : 0 < q) by lra.
  pose proof (ilog2_mono p q Hp Hpq) as He.
  destruct (Z.eq_dec (ilog2 p) (ilog2 q)) as [E|E].
  - rewrite !roundPositive_eq, E.
    apply Qmult_le_compat_r; [|apply Qlt_le_weak, pow2_pos].
    rewrite <- Zle_Qle. apply rne_mono.
    apply Qmult_le_compat_r; [exact Hpq|].
    apply Qlt_le_weak, Qinv_lt_0_compat, pow2_pos.
  - pose proof (roundPositive_upper p Hp).
    pose proof (roundPositive_lower q Hq).
    assert (2 ^ (ilog2 p + 1) <= 2 ^ ilog2 q) by (apply pow2_le; lia).
    lra.
Qed.

Lemma round_nonneg (q : Q) : 0 <= q -> 0 <= round q.
Proof.
  intros Hq. unfold round. destruct (Qcompare_spec q 0) as [H|H|H].
  - lra.
  - exfalso. lra.
  - apply Qlt_le_weak, roundPositive_pos, H.
Qed.

Lemma round_nonpos (q : Q) : q <= 0 -> round q <= 0.
Proof.
  intros Hq. unfold round. destruct (Qcompare_spec q 0) as [H|H|H].
  - lra.
  - assert (0 < - q) by lra. pose proof (roundPositive_pos _ H0). lra.
  - exfalso. lra.
Qed.

Lemma round_pos (q : Q) : 0 < q -> 0 < round q.
Proof.
  intros Hq. unfold round. destruct (Qcompare_spec q 0) as [H|H|H].
  - exfalso. rewrite H in Hq. lra.
  - exfalso. lra.
  - now apply roundPositive_pos.
Qed.

Lemma round_mono (p q : Q) : p <= q -> round p <= round q.
Proof.
  intros Hpq.
  destruct (Qlt_le_dec 0 p) as [Hp|Hp].
  - assert (Hq : 0 < q) by lra.
    unfold round.
    destruct (Qcompare_spec p 0) as [H1|H1|H1]; try (exfalso; lra).
    destruct (Qcompare_spec q 0) as [H2|H2|H2]; try (exfalso; lra).
    now apply roundPositive_mono.
  - destruct (Qlt_le_dec q 0) as [Hq|Hq].
    + unfold round.
      destruct (Qcompare_spec p 0) as [H1|H1|H1]; try (exfalso; lra).
      destruct (Qcompare_spec q 0) as [H2|H2|H2]; try (exfalso; lra).
      assert (0 < - q) by lra. assert (- q <= - p) by lra.
      pose proof (roundPositive_mono _ _ H H0). lra.
    + pose proof (round_nonpos p Hp). pose proof (round_nonneg q Hq). lra.
Qed.

Lemma parseFloat_mono (a b : Z) : (a <= b)%Z -> parseFloat a <= parseFloat b.
Proof.
  intros H. apply round_mono. unfold Qle. simpl. lia.
Qed.

Lemma parseFloat_nonneg (a : Z) : (0 <= a)%Z -> 0 <= parseFloat a.
Proof. intros H. apply round_nonneg. unfold Qle. simpl. lia. Qed.

Lemma ltb_true (x y : Q) : ltb x y = true <-> x < y.
Proof.
  unfold ltb. rewrite negb_true_iff. split.
  - intros H. apply Qnot_le_lt. intros H'. apply Qle_bool_iff in H'. congruence.
  - intros H. destruct (Qle_bool y x) eqn:E; [|reflexivity].
    apply Qle_bool_iff in E. exfalso. lra.
Qed.

Lemma ltb_false (x y : Q) : ltb x y = false <-> y <= x.
Proof.
  unfold ltb. rewrite negb_false_iff. apply Qle_bool_iff.
Qed.

(** An amount up to the balance passes the balance test. *)
Lemma affordable (balance amount : Z) :
  (amount <= balance)%Z -> ltb (parseFloat balance) (parseFloat amount) = false.
Proof. intros H. apply ltb_false. now apply parseFloat_mono. Qed.

Lemma pow10_pos (k : Z) : 0 < 10 ^ k.
Proof. apply Qpower_0_lt. reflexivity. Qed.

Lemma candidate_nonneg (d lo hi : Q) (closed : bool) (n k : Z) (c : Q) :
  0 <= d -> candidate d lo hi closed n k = Some c -> 0 <= c.
Proof.
  intros Hd. unfold candidate.
  pose proof (pow10_pos (n - k)) as Hu.
  assert (Hs : (0 <= Qfloor (d / 10 ^ (n - k)))%Z).
  { rewrite <- (Qfloor_Z 0). apply Qfloor_resp_le.
    apply Qle_shift_div_l; [exact Hu | now rewrite Qmult_0_l]. }
  assert (Hdown : 0 <= inject_Z (Qfloor (d / 10 ^ (n - k))) * 10 ^ (n - k)).
  { apply Qmult_le_0_compat; [|now apply Qlt_le_weak]. now rewrite Zle_Qle in Hs. }
  assert (Hup : 0 <= inject_Z (Qfloor (d / 10 ^ (n - k)) + 1) * 10 ^ (n - k)).
  { apply Qmult_le_0_compat; [|now apply Qlt_le_weak].
    change 0 with (inject_Z 0). rewrite <- Zle_Qle. lia. }
  destruct (inside closed lo hi _), (inside closed lo hi _);
    try destruct (Qcompare _ _); try destruct (Z.even _);
    intros H; inversion H; subst; assumption.
Qed.

Lemma digits_nonneg (fuel : nat) (d lo hi : Q) (closed : bool) (n k : Z) :
  0 <= d -> 0 <= digits fuel d lo hi closed n k.
Proof.
  intros Hd. revert k. induction fuel as [|f IH]; intros k; simpl; [exact Hd|].
  destruct (candidate d lo hi closed n k) as [c|] eqn:E; [|apply IH].
  now apply (candidate_nonneg d lo hi closed n k).
Qed.

Lemma toString_nonneg (d : Q) : 0 <= d -> 0 <= toString d.
Proof.
  intros Hd. unfold toString. destruct (Qcompare_spec d 0) as [H|H|H].
  - lra.
  - exfalso. lra.
  - unfold shortest. now apply digits_nonneg.
Qed.

Lemma toUnits_nonneg (x : Q) : 0 <= x -> (0 <= toUnits x)%Z.
Proof.
  intros Hx. unfold toUnits. destruct (Qcompare_spec x 0) as [H|H|H].
  - lia.
  - exfalso. lra.
  - unfold halfUp. rewrite <- (Qfloor_Z 0). apply Qfloor_resp_le.
    assert (0 <= x * 100000000) by (apply Qmult_le_0_compat; [lra | discriminate]).
    change (inject_Z 0) with 0. lra.
Qed.

Lemma written_nonneg (d : Q) : 0 <= d -> (0 <= db.decimal (toString d))%Z.
Proof. intros H. apply toUnits_nonneg, toString_nonneg, H. Qed.

(** A difference that passed the balance test is stored as a balance of at
    least 0, and so is the sum of two values of at least 0. *)
Lemma debited_nonneg (balance amount : Z) :
  ltb (parseFloat balance) (parseFloat amount) = false ->
  (0 <= debited balance amount)%Z.
Proof.
  intros H. apply ltb_false in H. apply written_nonneg. unfold sub.
  apply round_nonneg. lra.
Qed.

Lemma credited_nonneg (balance amount : Z) :
  (0 <= balance)%Z -> (0 <= amount)%Z -> (0 <= credited balance amount)%Z.
Proof.
  intros Ha Hb. apply written_nonneg. unfold add. apply round_nonneg.
  pose proof (parseFloat_nonneg balance Ha).
  pose proof (parseFloat_nonneg amount Hb). lra.
Qed.

(** The balance test rejects only amounts above the balance, and rejects
    every such amount that does not round to the double of the balance. *)
Lemma ltb_parseFloat (balance amount : Z) :
  ltb (parseFloat balance) (parseFloat amount) = true <->
  (balance < amount)%Z /\ ~ parseFloat balance == parseFloat amount.
Proof.
  rewrite ltb_true. split.
  - intros H. split.
    + destruct (Z_lt_le_dec balance amount) as [L|L]; [exact L|].
      pose proof (parseFloat_mono _ _ L). exfalso. lra.
    + intros E. rewrite E in H. lra.
  - intros [L N].
    assert (Hle : (balance <= amount)%Z) by lia.
    pose proof (parseFloat_mono _ _ Hle) as M.
    destruct (Qlt_le_dec (parseFloat balance) (parseFloat amount)) as [G|G];
      [exact G|].
    exfalso. apply N. lra.
Qed.

(* ------------------------------------------------------------------ *)
(** *** Rounding errors *)


(** Rounding to an integer moves a number by at most a half. *)
Lemma rne_error (x : Q) :
  inject_Z (rne x) - x <= 1 # 2 /\ x - inject_Z (rne x) <= 1 # 2.
Proof.
  pose proof (Qfloor_le x) as Hlo. pose proof (Qlt_floor x) as Hhi.
  rewrite inject_Z_plus in Hhi. change (inject_Z 1) with 1 in Hhi.
  unfold rne.
  destruct (Qcompare_spec (x - inject_Z (Qfloor x)) (1 # 2)) as [H|H|H].
  - destruct (Z.even (Qfloor x)).
    + split; lra.
    + rewrite inject_Z_plus. change (inject_Z 1) with 1. split; lra.
  - split; lra.
  - rewrite inject_Z_plus. change (inject_Z 1) with 1. split; lra.
Qed.

(** Half a unit in the last place of a positive number is at most the number
    times 2^-53. *)
Lemma halfUlp_le (q : Q) :
  0 < q -> 2 ^ (ilog2 q - 52) * (1 # 2) <= q * unitRoundoff.
Proof.
  intros Hq. destruct (ilog2_spec q Hq) as [H _].
  rewrite pow2_minus.
  change (2 ^ 52) with (4503599627370496 # 1).
  pose proof (pow2_pos (ilog2 q)) as Hp.
  unfold unitRoundoff.
  set (p := 2 ^ ilog2 q) in *.
  setoid_replace (p / (4503599627370496 # 1) * (1 # 2))
    with (p * (1 # 9007199254740992)) by (field; discriminate).
  clearbody p. lra.
Qed.

Lemma roundPositive_error (q : Q) :
  0 < q ->
  roundPositive q - q <= q * unitRoundoff /\ q - roundPositive q <= q * unitRoundoff.
Proof.
  intros Hq. pose proof (halfUlp_le q Hq) as Hu.
  rewrite roundPositive_eq.
  set (P := 2 ^ (ilog2 q - 52)) in *.
  assert (HP : 0 < P) by apply pow2_pos.
  destruct (rne_error (q / P)) as [H1 H2].
  set (R := inject_Z (rne (q / P))) in *.
  assert (E : q / P * P == q) by (field; lra).
  assert (G1 : (R - q / P) * P <= (1 # 2) * P)
    by (apply Qmult_le_compat_r; [exact H1 | lra]).
  assert (G2 : (q / P - R) * P <= (1 # 2) * P)
    by (apply Qmult_le_compat_r; [exact H2 | lra]).
  assert (F1 : (R - q / P) * P == R * P - q) by (rewrite <- E at 2; ring).
  assert (F2 : (q / P - R) * P == q - R * P) by (rewrite <- E at 2; ring).
  rewrite F1 in G1. rewrite F2 in G2.
  clear H1 H2 E F1 F2. clearbody P R. split; lra.
Qed.

(** The relative error of a rounding is at most 2^-53: on a number of
    magnitude at most [m] the rounding moves by at most [m] times 2^-53. *)
Lemma round_error (q m : Q) :
  - m <= q -> q <= m ->
  round q - q <= m * unitRoundoff /\ q - round q <= m * unitRoundoff.
Proof.
  intros Hlo Hhi. unfold round.
  assert (Hu : 0 < unitRoundoff) by reflexivity.
  destruct (Qcompare_spec q 0) as [H|H|H].
  - assert (0 <= m * unitRoundoff)
      by (apply Qmult_le_0_compat; [lra | now apply Qlt_le_weak]).
    rewrite H. split; lra.
  - assert (Hq : 0 < - q) by lra.
    destruct (roundPositive_error _ Hq) as [H1 H2].
    assert (- q * unitRoundoff <= m * unitRoundoff)
      by (apply Qmult_le_compat_r; [lra | now apply Qlt_le_weak]).
    split; lra.
  - destruct (roundPositive_error _ H) as [H1 H2].
    assert (q * unitRoundoff <= m * unitRoundoff)
      by (apply Qmult_le_compat_r; [lra | now apply Qlt_le_weak]).
    split; lra.
Qed.











(** Within that range the balance test is exact as well: two different
    decimals are read as two different doubles, in the order of the
    decimals. *)
Lemma parseFloat_lt (x y : Z) :
  (Z.abs x <= exactBound)%Z -> (Z.abs y <= exactBound)%Z ->
  (x < y)%Z -> parseFloat x < parseFloat y.
Proof.
  unfold exactBound, parseFloat. intros Hx Hy Hlt.
  assert (EX : (x # 100000000) * 100000000 == inject_Z x)
    by (unfold Qeq; simpl; lia).
  assert (EY : (y # 100000000) * 100000000 == inject_Z y)
    by (unfold Qeq; simpl; lia).
  assert (BX : - (5000000) <= x # 100000000 /\ x # 100000000 <= 5000000)
    by (unfold Qle; simpl; lia).
  assert (BY : - (5000000) <= y # 100000000 /\ y # 100000000 <= 5000000)
    by (unfold Qle; simpl; lia).
  destruct BX as [BX1 BX2]. destruct BY as [BY1 BY2].
  destruct (round_error _ _ BX1 BX2) as [PX1 PX2].
  destruct (round_error _ _ BY1 BY2) as [PY1 PY2].
  assert (L : inject_Z x + 1 <= inject_Z y).
  { change 1 with (inject_Z 1). rewrite <- inject_Z_plus, <- Zle_Qle. lia. }
  set (X := x # 100000000) in *. set (Y := y # 100000000) in *.
  set (px := round X) in *. set (py := round Y) in *.
  clearbody px py X Y. unfold unitRoundoff in *. lra.
Qed.

Lemma ltb_exact (balance amount : Z) :
  (Z.abs balance <= exactBound)%Z -> (Z.abs amount <= exactBound)%Z ->
  (ltb (parseFloat balance) (parseFloat amount) = true <-> (balance < amount)%Z).
Proof.
  intros Hx Hy. rewrite ltb_parseFloat. split; [tauto|].
  intros Hlt. split; [exact Hlt|].
  pose proof (parseFloat_lt _ _ Hx Hy Hlt) as H. intros E. rewrite E in H.
  now apply (Qlt_irrefl (parseFloat amount)).
Qed.

(** The balance test rejects an amount above the balance when the two are
    not read as the same double, and in particular when both are within the
    exact range. *)
Lemma unaffordable (balance amount : Z) :
  (balance < amount)%Z ->
  ~ parseFloat balance == parseFloat amount
  \/ ((Z.abs balance <= exactBound)%Z /\ (Z.abs amount <= exactBound)%Z) ->
  ltb (parseFloat balance) (parseFloat amount) = true.
Proof.
  intros Hlt [Hd | [Hx Hy]].
  - apply ltb_parseFloat. now split.
  - now apply ltb_exact.
Qed.

End Doubles.

(* ================================================================== *)
(** ** Basic facts about the store *)

(** [setBalance] keeps the id, the owner and the currency of a row. *)
Lemma setBalance_id (k v : Z) (w : Wallet.t) :
  Wallet.id (db.setBalance k v w) = Wallet.id w.
Proof. unfold db.setBalance. now destruct (Wallet.id w =? k). Qed.

Lemma setBalance_ownerCurrency (k v : Z) (w : Wallet.t) :
  ownerCurrency (db.setBalance k v w) = ownerCurrency w.
Proof. unfold db.setBalance. now destruct (Wallet.id w =? k). Qed.

Lemma find_setBalance (i k v : Z) (rows : list Wallet.t) :
  find (fun w => Wallet.id w =? i) (map (db.setBalance k v) rows)
  = option_map (db.setBalance k v) (find (fun w => Wallet.id w =? i) rows).
Proof.
  induction rows as [|w rows IH]; simpl; [reflexivity|].
  rewrite setBalance_id. destruct (Wallet.id w =? i); [reflexivity | exact IH].
Qed.




(** Unfolding of the procedures down to the store. *)
Ltac run_async :=
  cbv beta iota zeta delta
      [tryCatch bind ret throw
       db.getWalletById db.getUserWallets db.createTransaction
       db.updateWalletBalance db.createWallet db.requireDb db.getDb];
  simpl.

(** The same on a store taken apart, so that the connection flag computes. *)
Ltac open_store s :=
  let c := fresh "c" in
  destruct s as [c ? ? ? ?]; simpl in *; try subst c.

(* ================================================================== *)
(** ** transactions.transfer, run alone *)

Section Transfer.

Import transactionsRouter.

(** The store an accepted transfer leaves: one more transaction row, the
    source row rewritten, then the destination row rewritten, both from the
    balances read before the first write.  The test of the balance is the
    one of the code, on doubles. *)
Lemma transfer_accepted (ctx : Context) (input : TransferInput) (s : Store)
      (fw tw : Wallet.t) :
  connected s = true ->
  walletById s (fromWalletId input) = Some fw ->
  Wallet.userId fw = ctx_user_id ctx ->
  walletById s (toWalletId input) = Some tw ->
  JS.ltb (JS.parseFloat (Wallet.balance fw)) (JS.parseFloat (amount input)) = false ->
  transfer ctx input s =
  (Returned (Success "Transfer completed successfully"),
   mkStore true
     (map (db.setBalance (toWalletId input)
                         (credited (Wallet.balance tw) (amount input)))
          (map (db.setBalance (fromWalletId input)
                              (debited (Wallet.balance fw) (amount input)))
               (walletRows s)))
     (transactionRows s ++ [db.insertedRow (transactionSeq s) (transferData ctx input)])
     (walletSeq s) (transactionSeq s + 1)).
Proof.
  unfold walletById. intros Hc Hf Ho Ht Hb. open_store s.
  unfold transfer. run_async. rewrite Hf.
  rewrite (proj2 (Z.eqb_eq _ _) Ho). simpl. rewrite Ht.
  rewrite Hb. reflexivity.
Qed.

(** A transfer never throws, and it answers in one of five ways. *)
Lemma transfer_cases (ctx : Context) (input : TransferInput) (s : Store) :
  (connected s = false /\
   transfer ctx input s = (Returned (Failure "Transfer failed"), s))
  \/ (connected s = true /\
      (walletById s (fromWalletId input) = None \/
       exists fw, walletById s (fromWalletId input) = Some fw /\
                  Wallet.userId fw <> ctx_user_id ctx) /\
      transfer ctx input s = (Returned (Failure "Invalid source wallet"), s))
  \/ (connected s = true /\
      (exists fw, walletById s (fromWalletId input) = Some fw /\
                  Wallet.userId fw = ctx_user_id ctx) /\
      walletById s (toWalletId input) = None /\
      transfer ctx input s = (Returned (Failure "Invalid destination wallet"), s))
  \/ (connected s = true /\
      (exists fw tw, walletById s (fromWalletId input) = Some fw /\
                     Wallet.userId fw = ctx_user_id ctx /\
                     walletById s (toWalletId input) = Some tw /\
                     JS.ltb (JS.parseFloat (Wallet.balance fw))
                            (JS.parseFloat (amount input)) = true) /\
      transfer ctx input s = (Returned (Failure "Insufficient balance"), s))
  \/ (exists fw tw, connected s = true /\
                    walletById s (fromWalletId input) = Some fw /\
                    Wallet.userId fw = ctx_user_id ctx /\
                    walletById s (toWalletId input) = Some tw /\
                    JS.ltb (JS.parseFloat (Wallet.balance fw))
                           (JS.parseFloat (amount input)) = false).
Proof.
  destruct (connected s) eqn:Hc.
  2:{ left. split; [reflexivity|]. open_store s. reflexivity. }
  right. unfold walletById.
  destruct (find _ (walletRows s)) as [fw|] eqn:Hf.
  2:{ left. split; [reflexivity|]. split; [now left|].
      open_store s. unfold transfer. run_async. now rewrite Hf. }
  destruct (Z.eq_dec (Wallet.userId fw) (ctx_user_id ctx)) as [Ho|Ho].
  2:{ left. split; [reflexivity|]. split; [right; now exists fw|].
      open_store s. unfold transfer. run_async. rewrite Hf.
      now rewrite (proj2 (Z.eqb_neq _ _) Ho). }
  right.
  destruct (find (fun w => Wallet.id w =? toWalletId input) (walletRows s))
    as [tw|] eqn:Ht.
  2:{ left. split; [reflexivity|]. split; [now exists fw|]. split; [reflexivity|].
      open_store s. unfold transfer. run_async. rewrite Hf.
      rewrite (proj2 (Z.eqb_eq _ _) Ho). simpl. now rewrite Ht. }
  right.
  destruct (JS.ltb (JS.parseFloat (Wallet.balance fw))
                   (JS.parseFloat (amount input))) eqn:Hb.
  - left. split; [reflexivity|]. split; [now exists fw, tw|].
    open_store s. unfold transfer. run_async. rewrite Hf.
    rewrite (proj2 (Z.eqb_eq _ _) Ho). simpl. rewrite Ht.
    now rewrite Hb.
  - right. now exists fw, tw.
Qed.

End Transfer.



Lemma find_setBalance_some (i k v : Z) (rows : list Wallet.t) (w : Wallet.t) :
  find (fun w => Wallet.id w =? i) rows = Some w ->
  find (fun w => Wallet.id w =? i) (map (db.setBalance k v) rows)
  = Some (db.setBalance k v w).
Proof. intros Hw. now rewrite find_setBalance, Hw. Qed.

Section TransferClaims.

Import transactionsRouter.

(** C1, as the specification has it, fails: the balance test compares two
    doubles, and 67108864.00000001 and 67108864.00000002 are read as the same
    double.  A transfer of the second out of a wallet that holds the first is
    accepted, although the balance is below the amount; the source is left
    with 0 and the destination is credited. *)
Lemma transfer_above_balance_accepted :
  balanceOf ledgerCollide 1 = Some 6710886400000001
  /\ 6710886400000001 < amount sendOneUnitMore
  /\ transfer alice sendOneUnitMore ledgerCollide =
     (Returned (Success "Transfer completed successfully"),
      mkStore true
              [Wallet.mk 1 1 "USD" 0 None true;
               Wallet.mk 2 2 "USD" 6710886400000001 None true]
              [Transaction.mk 1 (Some 1) (Some 2) 1 (Some 2) 6710886400000002
                              (Some 0) TransactionType.transfer
                              TransactionStatus.completed None None]
              3 2).
Proof. split; [reflexivity | split; [simpl; lia | vm_compute; reflexivity]]. Qed.

(** C1, amended: a transfer that fails a validation step (source wallet
    missing or not owned by the caller, destination wallet missing, source
    balance below the amount and not read as the same double as the amount,
    as is the case whenever both are at most 5000000.00000000 in magnitude)
    answers with an error and leaves the store as it was: no transaction row
    is added and no balance changes. *)
Theorem transfer_failed_validation_changes_nothing
        (ctx : Context) (input : TransferInput) (s : Store) :
  (walletById s (fromWalletId input) = None
   \/ (exists fw, walletById s (fromWalletId input) = Some fw /\
                  Wallet.userId fw <> ctx_user_id ctx)
   \/ walletById s (toWalletId input) = None
   \/ (exists fw, walletById s (fromWalletId input) = Some fw /\
                  Wallet.balance fw < amount input /\
                  (~ (JS.parseFloat (Wallet.balance fw)
                      == JS.parseFloat (amount input))%Q
                   \/ (Z.abs (Wallet.balance fw) <= exactBound /\
                       Z.abs (amount input) <= exactBound)))) ->
  exists e, transfer ctx input s = (Returned (Failure e), s).
Proof.
  intros Hbad.
  destruct (transfer_cases ctx input s)
    as [[_ H] | [[_ [_ H]] | [[_ [_ [_ H]]] | [[_ [_ H]] | H]]]];
    try (eexists; exact H).
  destruct H as (fw & tw & _ & Hf & Ho & Ht & Hb).
  exfalso.
  destruct Hbad as [H | [(fw' & H & Hn) | [H | (fw' & H & Hlt)]]];
    rewrite ?Hf, ?Ht in H; try discriminate.
  - inversion H; subst fw'. contradiction.
  - inversion H; subst fw'. destruct Hlt as [Hlt Hd].
    rewrite (unaffordable _ _ Hlt Hd) in Hb. discriminate.
Qed.

Lemma transfer_failed_validation_changes_nothing_witness :
  exists e, transfer alice sendOneUnitMore ledger100
            = (Returned (Failure e), ledger100).
Proof.
  apply (transfer_failed_validation_changes_nothing alice sendOneUnitMore ledger100).
  right; right; right. exists (Wallet.mk 1 1 "USD" 10000000000 None true).
  split; [reflexivity|]. split; [simpl; lia|].
  left. vm_compute. discriminate.
Defined.












End TransferClaims.

(* ================================================================== *)
(** ** crypto.initiateWithdrawal *)

Section CryptoClaims.

Import cryptoRouter.

(** What an accepted [initiateWithdrawal] does: one pending row, no write to
    the wallets. *)
Lemma initiateWithdrawal_accepted
      (ctx : Context) (input : WithdrawalInput) (s : Store) (w : Wallet.t) :
  connected s = true ->
  find (fun w => String.eqb (Wallet.currencyCode w) (code (cryptocurrency input)))
       (filter (fun w => Wallet.userId w =? ctx_user_id ctx) (walletRows s))
  = Some w ->
  JS.ltb (JS.parseFloat (Wallet.balance w)) (JS.parseFloat (amount input)) = false ->
  initiateWithdrawal ctx input s =
  (Returned (Success (mkWithdrawalReply "Withdrawal initiated successfully"
                                        TransactionStatus.pending
                                        (cryptocurrency input))),
   mkStore true
           (walletRows s)
           (transactionRows s ++
              [Transaction.mk (transactionSeq s) (Some (ctx_user_id ctx)) None
                              (Wallet.id w) (Some (Wallet.id w)) (amount input)
                              (Some mockFee)
                              TransactionType.withdrawal TransactionStatus.pending
                              None
                              (Some ("Withdrawal to "
                                       ++ substring 0 10 (destinationAddress input)
                                       ++ "..."))])
           (walletSeq s) (transactionSeq s + 1)).
Proof.
  intros Hc Hw Hb. open_store s.
  unfold initiateWithdrawal. run_async. rewrite Hw.
  rewrite Hb. reflexivity.
Qed.

(** C6, as the specification has it, fails: a withdrawal of 0.5 BTC from a
    wallet holding 1 BTC is recorded as pending, and the wallet still holds
    1 BTC afterwards. *)
Lemma initiateWithdrawal_does_not_debit :
  initiateWithdrawal alice withdrawHalf ledgerCrypto =
  (Returned (Success (mkWithdrawalReply "Withdrawal initiated successfully"
                                        TransactionStatus.pending BTC)),
   mkStore true
           (walletRows ledgerCrypto)
           [Transaction.mk 1 (Some 1) None 1 (Some 1) 50000000 (Some 50000)
                           TransactionType.withdrawal TransactionStatus.pending
                           None (Some "Withdrawal to bc1qar0srr...")]
           3 2)
  /\ balanceOf ledgerCrypto 1 = Some 100000000
  /\ balanceOf (snd (initiateWithdrawal alice withdrawHalf ledgerCrypto)) 1
     = Some 100000000
  /\ 100000000 <> 100000000 - amount withdrawHalf.
Proof. repeat split; try (vm_compute; reflexivity). simpl. lia. Qed.

(** C6, amended: when the caller has a wallet in the requested currency
    whose balance is at least the amount, the procedure adds one transaction
    row of type withdrawal with status pending (and the mock fee 0.0005) and
    answers with status pending; the wallet rows, and so every balance, stay
    as they were. *)
Theorem initiateWithdrawal_records_pending
        (ctx : Context) (input : WithdrawalInput) (s : Store) (w : Wallet.t) :
  connected s = true ->
  find (fun w => String.eqb (Wallet.currencyCode w) (code (cryptocurrency input)))
       (filter (fun w => Wallet.userId w =? ctx_user_id ctx) (walletRows s))
  = Some w ->
  amount input <= Wallet.balance w ->
  initiateWithdrawal ctx input s =
  (Returned (Success (mkWithdrawalReply "Withdrawal initiated successfully"
                                        TransactionStatus.pending
                                        (cryptocurrency input))),
   mkStore true
           (walletRows s)
           (transactionRows s ++
              [Transaction.mk (transactionSeq s) (Some (ctx_user_id ctx)) None
                              (Wallet.id w) (Some (Wallet.id w)) (amount input)
                              (Some mockFee)
                              TransactionType.withdrawal TransactionStatus.pending
                              None
                              (Some ("Withdrawal to "
                                       ++ substring 0 10 (destinationAddress input)
                                       ++ "..."))])
           (walletSeq s) (transactionSeq s + 1)).
Proof.
  intros Hc Hw Hb.
  exact (initiateWithdrawal_accepted ctx input s w Hc Hw (affordable _ _ Hb)).
Qed.

Lemma initiateWithdrawal_records_pending_witness :
  initiateWithdrawal alice withdrawHalf ledgerCrypto =
  (Returned (Success (mkWithdrawalReply "Withdrawal initiated successfully"
                                        TransactionStatus.pending BTC)),
   mkStore true
           (walletRows ledgerCrypto)
           [Transaction.mk 1 (Some 1) None 1 (Some 1) 50000000 (Some mockFee)
                           TransactionType.withdrawal TransactionStatus.pending
                           None (Some "Withdrawal to bc1qar0srr...")]
           3 2).
Proof.
  apply (initiateWithdrawal_records_pending
           alice withdrawHalf ledgerCrypto
           (Wallet.mk 1 1 "BTC" 100000000
                      (Some "1A1z7agoat4FqCnf4Xy2MQUqLCWCuqq2em") true));
    first [reflexivity | simpl; lia].
Defined.

End CryptoClaims.

(* ================================================================== *)
(** ** wallets.getDistribution *)

Section DistributionClaims.

Import walletsRouter.

Lemma Forall2_map_right {A B} (P : A -> B -> Prop) (f : A -> B) (l : list A) :
  (forall a, P a (f a)) -> Forall2 P l (map f l).
Proof. intros H. induction l; simpl; constructor; auto. Qed.

Lemma isZero_true (x : JS.number) : JS.isZero x = true <-> (x == 0)%Q.
Proof. unfold JS.isZero. apply Qeq_bool_iff. Qed.

Lemma parseFloat_pos (a : Z) : 0 < a -> (0 < JS.parseFloat a)%Q.
Proof. intros H. apply round_pos. unfold Qlt. simpl. lia. Qed.

Lemma add_nonneg (x y : JS.number) :
  (0 <= x)%Q -> (0 <= y)%Q -> (0 <= JS.add x y)%Q.
Proof. intros Hx Hy. apply round_nonneg. lra. Qed.

Lemma add_pos (x y : JS.number) :
  (0 <= x)%Q -> (0 <= y)%Q -> (0 < x \/ 0 < y)%Q -> (0 < JS.add x y)%Q.
Proof. intros Hx Hy Hxy. apply round_pos. destruct Hxy; lra. Qed.

(** The double sum of balances of at least 0, from a start of at least 0:
    it is at least 0, and above 0 as soon as the start or one balance is. *)
Lemma sum_nonneg (wallets : list Wallet.t) (start : JS.number) :
  Forall (fun w => 0 <= Wallet.balance w) wallets ->
  (0 <= start)%Q ->
  (0 <= fold_left (fun sum wallet => JS.add sum (JS.parseFloat (Wallet.balance wallet)))
                  wallets start)%Q.
Proof.
  revert start. induction wallets as [|w ws IH]; intros start Hws Hs; simpl.
  - exact Hs.
  - inversion Hws as [|w' ws' Hw Hrest]; subst.
    apply IH; [exact Hrest|].
    apply add_nonneg; [exact Hs | now apply parseFloat_nonneg].
Qed.

Lemma sum_pos_start (wallets : list Wallet.t) (start : JS.number) :
  Forall (fun w => 0 <= Wallet.balance w) wallets ->
  (0 < start)%Q ->
  (0 < fold_left (fun sum wallet => JS.add sum (JS.parseFloat (Wallet.balance wallet)))
                 wallets start)%Q.
Proof.
  revert start. induction wallets as [|w ws IH]; intros start Hws Hs; simpl.
  - exact Hs.
  - inversion Hws as [|w' ws' Hw Hrest]; subst.
    apply IH; [exact Hrest|].
    apply add_pos; [now apply Qlt_le_weak | now apply parseFloat_nonneg | now left].
Qed.

Lemma sum_pos (wallets : list Wallet.t) (start : JS.number) :
  Forall (fun w => 0 <= Wallet.balance w) wallets ->
  (0 <= start)%Q ->
  Exists (fun w => 0 < Wallet.balance w) wallets ->
  (0 < fold_left (fun sum wallet => JS.add sum (JS.parseFloat (Wallet.balance wallet)))
                 wallets start)%Q.
Proof.
  revert start. induction wallets as [|w ws IH]; intros start Hws Hs Hex; simpl.
  - inversion Hex.
  - inversion Hws as [|w' ws' Hw Hrest]; subst.
    inversion Hex as [w' ws' Hpos | w' ws' Hlater]; subst.
    + apply sum_pos_start; [exact Hrest|].
      apply add_pos; [exact Hs | now apply parseFloat_nonneg |].
      right. now apply parseFloat_pos.
    + apply IH; [exact Hrest | | exact Hlater].
      apply add_nonneg; [exact Hs | now apply parseFloat_nonneg].
Qed.

Lemma sum_zero (wallets : list Wallet.t) :
  Forall (fun w => Wallet.balance w = 0) wallets ->
  fold_left (fun sum wallet => JS.add sum (JS.parseFloat (Wallet.balance wallet)))
            wallets 0%Q = 0%Q.
Proof.
  induction wallets as [|w ws IH]; intros Hws; simpl; [reflexivity|].
  inversion Hws as [|w' ws' Hw Hrest]; subst. rewrite Hw.
  change (JS.add 0%Q (JS.parseFloat 0)) with 0%Q. now apply IH.
Qed.

Lemma zero_or_positive (wallets : list Wallet.t) :
  Forall (fun w => 0 <= Wallet.balance w) wallets ->
  Forall (fun w => Wallet.balance w = 0) wallets
  \/ Exists (fun w => 0 < Wallet.balance w) wallets.
Proof.
  induction 1 as [|w ws Hw Hws IH]; [left; constructor|].
  destruct (Z.eq_dec (Wallet.balance w) 0) as [E|E].
  - destruct IH as [IH|IH]; [left; now constructor | right; now constructor 2].
  - right. constructor. lia.
Qed.

(** C7, as the specification has it, fails twice.  The total and the
    percentages are computed on doubles: wallets of 0.1, 0.2 and -0.3 have
    the total 0, and yet the answer has three entries, with percentages of
    about 1.8e17, 3.6e17 and -5.4e17, since 0.1 + 0.2 - 0.3 is not 0 on
    doubles; and with wallets of 1 and 2 the first percentage is the double
    next to 100/3, not 1 / 3 * 100. *)
Lemma getDistribution_on_doubles :
  (fold_right Z.add 0 (map Wallet.balance (walletRows ledgerTenths)) = 0
   /\ getDistribution alice ledgerTenths =
      (Returned (Success [mkEntry "USD" 10000000 180143985094819840%Q;
                          mkEntry "EUR" 20000000 360287970189639680%Q;
                          mkEntry "GBP" (-30000000) (-540431955284459520)%Q]),
       ledgerTenths))
  /\ (getDistribution alice ledgerThirds =
      (Returned (Success [mkEntry "USD" 100000000
                                  (2345624805922133 # 70368744177664)%Q;
                          mkEntry "EUR" 200000000
                                  (2345624805922133 # 35184372088832)%Q]),
       ledgerThirds)
      /\ ~ ((2345624805922133 # 70368744177664)
            == inject_Z 100000000 / inject_Z (100000000 + 200000000) * 100)%Q).
Proof.
  split; split; try (vm_compute; reflexivity).
  vm_compute. discriminate.
Qed.

(** C7, amended: with [total] the sum of the balances of the caller's
    wallets, added up on doubles from 0 in the order of the wallets, a
    nonzero [total] makes [getDistribution] answer with one entry per wallet,
    in the order of the wallets, carrying the wallet's currency and balance
    and the percentage balance / total * 100 computed on doubles; a [total]
    of 0 makes it answer with the empty list.  In both cases the store is
    left alone.  When no wallet of the caller has a negative balance, [total]
    is 0 exactly when every balance is 0. *)
Theorem getDistribution_percentages (ctx : Context) (s : Store) (total : JS.number) :
  connected s = true ->
  total = fold_left (fun sum w => JS.add sum (JS.parseFloat (Wallet.balance w)))
                    (filter (fun w => Wallet.userId w =? ctx_user_id ctx)
                            (walletRows s))
                    0%Q ->
  (JS.isZero total = false ->
   exists d,
     getDistribution ctx s = (Returned (Success d), s) /\
     Forall2 (fun w e =>
                currency e = Wallet.currencyCode w /\
                balance e = Wallet.balance w /\
                percentage e
                = JS.mul (JS.div (JS.parseFloat (Wallet.balance w)) total) 100%Q)
             (filter (fun w => Wallet.userId w =? ctx_user_id ctx) (walletRows s))
             d)
  /\ (JS.isZero total = true -> getDistribution ctx s = (Returned (Success []), s))
  /\ (Forall (fun w => 0 <= Wallet.balance w)
             (filter (fun w => Wallet.userId w =? ctx_user_id ctx) (walletRows s)) ->
      (JS.isZero total = true <->
       Forall (fun w => Wallet.balance w = 0)
              (filter (fun w => Wallet.userId w =? ctx_user_id ctx) (walletRows s)))).
Proof.
  intros Hc Ht. open_store s. split; [|split].
  - intros Hnz. eexists. split.
    + unfold getDistribution. run_async. unfold totalValue.
      rewrite <- Ht, Hnz. reflexivity.
    + apply Forall2_map_right. intros w. simpl.
      repeat split; reflexivity.
  - intros Hz. unfold getDistribution. run_async. unfold totalValue.
    rewrite <- Ht, Hz. reflexivity.
  - intros Hpos. split.
    + intros Hz. apply isZero_true in Hz.
      destruct (zero_or_positive _ Hpos) as [H|H]; [exact H|].
      exfalso.
      pose proof (sum_pos _ 0%Q Hpos (Qle_refl 0) H) as Hs.
      rewrite <- Ht in Hs. rewrite Hz in Hs. now apply (Qlt_irrefl 0).
    + intros Hall. rewrite Ht, (sum_zero _ Hall). reflexivity.
Qed.

Lemma getDistribution_percentages_witness :
  (JS.isZero 4%Q = false ->
   exists d,
     getDistribution alice ledgerCrypto = (Returned (Success d), ledgerCrypto) /\
     Forall2 (fun w e =>
                currency e = Wallet.currencyCode w /\
                balance e = Wallet.balance w /\
                percentage e
                = JS.mul (JS.div (JS.parseFloat (Wallet.balance w)) 4%Q) 100%Q)
             (walletRows ledgerCrypto)
             d)
  /\ (JS.isZero 4%Q = true ->
      getDistribution alice ledgerCrypto = (Returned (Success []), ledgerCrypto))
  /\ (Forall (fun w => 0 <= Wallet.balance w) (walletRows ledgerCrypto) ->
      (JS.isZero 4%Q = true <->
       Forall (fun w => Wallet.balance w = 0) (walletRows ledgerCrypto))).
Proof.
  apply (getDistribution_percentages alice ledgerCrypto 4%Q);
    vm_compute; reflexivity.
Defined.

End DistributionClaims.

(* ================================================================== *)
(** ** What a request can do to the wallet rows *)

Lemma found_nonNegative (s : Store) (i : Z) (w : Wallet.t) :
  nonNegative s -> walletById s i = Some w -> 0 <= Wallet.balance w.
Proof.
  unfold nonNegative, walletById. intros Hs Hw.
  apply find_some in Hw. destruct Hw as [Hin _].
  rewrite Forall_forall in Hs. now apply Hs.
Qed.

Lemma transfer_effect (ctx : Context) (input : transactionsRouter.TransferInput)
      (s : Store) :
  Effect s (0 <= transactionsRouter.amount input)
         (walletRows (snd (transactionsRouter.transfer ctx input s))).
Proof.
  destruct (transfer_cases ctx input s)
    as [[_ H] | [[_ [_ H]] | [[_ [_ [_ H]]] | [[_ [_ H]] | H]]]];
    try (rewrite H; left; reflexivity).
  destruct H as (fw & tw & Hc & Hf & Ho & Ht & Hb).
  rewrite (transfer_accepted ctx input s fw tw Hc Hf Ho Ht Hb). simpl.
  right; right; left. do 4 eexists. split; [reflexivity|].
  intros Ha Hs. split.
  - now apply debited_nonneg.
  - apply credited_nonneg; [exact (found_nonNegative s _ tw Hs Ht) | exact Ha].
Qed.

Lemma recordDeposit_effect (ctx : Context) (input : transactionsRouter.RecordInput)
      (s : Store) :
  Effect s (0 <= transactionsRouter.r_amount input)
         (walletRows (snd (transactionsRouter.recordDeposit ctx input s))).
Proof.
  destruct (connected s) eqn:Hc; open_store s; [|left; reflexivity].
  unfold transactionsRouter.recordDeposit. run_async.
  match goal with
  | |- context [find ?f ?l] => destruct (find f l) as [w|] eqn:Hw
  end; [|left; reflexivity].
  destruct (Wallet.userId w =? ctx_user_id ctx); simpl; [|left; reflexivity].
  right; left. do 2 eexists. split; [reflexivity|].
  intros Ha Hs.
  apply credited_nonneg; [exact (found_nonNegative _ _ w Hs Hw) | exact Ha].
Qed.

Lemma recordWithdrawal_effect (ctx : Context)
      (input : transactionsRouter.RecordInput) (s : Store) :
  Effect s (0 <= transactionsRouter.r_amount input)
         (walletRows (snd (transactionsRouter.recordWithdrawal ctx input s))).
Proof.
  destruct (connected s) eqn:Hc; open_store s; [|left; reflexivity].
  unfold transactionsRouter.recordWithdrawal. run_async.
  match goal with
  | |- context [find ?f ?l] => destruct (find f l) as [w|] eqn:Hw
  end; [|left; reflexivity].
  destruct (Wallet.userId w =? ctx_user_id ctx); simpl; [|left; reflexivity].
  destruct (JS.ltb (JS.parseFloat (Wallet.balance w))
                   (JS.parseFloat (transactionsRouter.r_amount input))) eqn:Hb;
    [left; reflexivity|].
  right; left. do 2 eexists. split; [reflexivity|].
  intros _ _. now apply debited_nonneg.
Qed.

Lemma initiateWithdrawal_rows (ctx : Context) (input : cryptoRouter.WithdrawalInput)
      (s : Store) :
  walletRows (snd (cryptoRouter.initiateWithdrawal ctx input s)) = walletRows s.
Proof.
  destruct (connected s) eqn:Hc; open_store s; [|reflexivity].
  unfold cryptoRouter.initiateWithdrawal. run_async.
  match goal with
  | |- context [find ?f ?l] => destruct (find f l) as [w|]
  end; [|reflexivity].
  now destruct (JS.ltb (JS.parseFloat (Wallet.balance w))
                       (JS.parseFloat (cryptoRouter.amount input))).
Qed.

(** No wallet of [u] in currency [c]: the pair is not among the rows. *)
Lemma no_wallet_in_currency (u : Z) (c : string) (rows : list Wallet.t) :
  existsb (fun w => String.eqb (Wallet.currencyCode w) c)
          (filter (fun w => Wallet.userId w =? u) rows) = false ->
  ~ In (u, c) (map ownerCurrency rows).
Proof.
  intros Hex Hin. apply in_map_iff in Hin. destruct Hin as (w & Hk & Hin).
  unfold ownerCurrency in Hk. inversion Hk; subst u c.
  assert (E : existsb (fun w0 => String.eqb (Wallet.currencyCode w0)
                                            (Wallet.currencyCode w))
                      (filter (fun w0 => Wallet.userId w0 =? Wallet.userId w) rows)
              = true).
  { apply existsb_exists. exists w. split.
    - apply filter_In. split; [exact Hin | apply Z.eqb_refl].
    - apply String.eqb_refl. }
  congruence.
Qed.

Lemma create_effect (ctx : Context) (input : walletsRouter.CreateInput)
      (s : Store) :
  Effect s True (walletRows (snd (walletsRouter.create ctx input s))).
Proof.
  destruct (connected s) eqn:Hc; open_store s; [|left; reflexivity].
  unfold walletsRouter.create. run_async.
  match goal with
  | |- context [existsb ?f ?l] => destruct (existsb f l) eqn:Hex
  end; simpl; [left; reflexivity|].
  right; right; right. do 4 eexists. split; [reflexivity|].
  now apply no_wallet_in_currency.
Qed.

Lemma generateAddress_effect (ctx : Context) (c : cryptoRouter.Cryptocurrency)
      (s : Store) :
  Effect s True (walletRows (snd (cryptoRouter.generateAddress ctx c s))).
Proof.
  destruct (connected s) eqn:Hc; open_store s; [|left; reflexivity].
  unfold cryptoRouter.generateAddress. run_async.
  match goal with
  | |- context [existsb ?f ?l] => destruct (existsb f l) eqn:Hex
  end; simpl; [left; reflexivity|].
  right; right; right. do 4 eexists. split; [reflexivity|].
  now apply no_wallet_in_currency.
Qed.

Lemma serve_effect (r : Request) (s : Store) :
  Effect s (0 <= requestAmount r) (walletRows (serve r s)).
Proof.
  destruct r as [ctx i | ctx i | ctx i | ctx i | ctx i | ctx c]; simpl.
  - apply transfer_effect.
  - apply recordDeposit_effect.
  - apply recordWithdrawal_effect.
  - left. apply initiateWithdrawal_rows.
  - destruct (create_effect ctx i s) as [H | [H | [H | H]]].
    + now left.
    + destruct H as (k & v & H & Hv). right; left. exists k, v. auto.
    + destruct H as (k1 & v1 & k2 & v2 & H & Hv). right; right; left.
      exists k1, v1, k2, v2. auto.
    + now right; right; right.
  - destruct (generateAddress_effect ctx c s) as [H | [H | [H | H]]].
    + now left.
    + destruct H as (k & v & H & Hv). right; left. exists k, v. auto.
    + destruct H as (k1 & v1 & k2 & v2 & H & Hv). right; right; left.
      exists k1, v1, k2, v2. auto.
    + now right; right; right.
Qed.

Lemma setBalance_nonNegative (k v : Z) (rows : list Wallet.t) :
  0 <= v ->
  Forall (fun w => 0 <= Wallet.balance w) rows ->
  Forall (fun w => 0 <= Wallet.balance w) (map (db.setBalance k v) rows).
Proof.
  intros Hv Hrows. rewrite Forall_map.
  eapply Forall_impl; [|exact Hrows].
  intros w Hw. unfold db.setBalance.
  destruct (Wallet.id w =? k); simpl; assumption.
Qed.

Lemma effect_nonNegative (s : Store) (P : Prop) (rows' : list Wallet.t) :
  Effect s P rows' -> P -> nonNegative s ->
  Forall (fun w => 0 <= Wallet.balance w) rows'.
Proof.
  intros [H | [H | [H | H]]] HP Hs.
  - now rewrite H.
  - destruct H as (k & v & H & Hv). rewrite H.
    apply setBalance_nonNegative; auto.
  - destruct H as (k1 & v1 & k2 & v2 & H & Hv). rewrite H.
    destruct (Hv HP Hs). now repeat apply setBalance_nonNegative.
  - destruct H as (i & u & c & a & H & _). rewrite H.
    apply Forall_app. split; [exact Hs|]. constructor; [simpl; lia | constructor].
Qed.

Lemma effect_unique (s : Store) (P : Prop) (rows' : list Wallet.t) :
  Effect s P rows' -> NoDup (ownerCurrencies s) ->
  NoDup (map ownerCurrency rows').
Proof.
  assert (K : forall k v rows,
             map ownerCurrency (map (db.setBalance k v) rows) = map ownerCurrency rows).
  { intros k v rows. rewrite map_map. apply map_ext.
    intros w. apply setBalance_ownerCurrency. }
  unfold ownerCurrencies.
  intros [H | [H | [H | H]]] Hs.
  - now rewrite H.
  - destruct H as (k & v & H & _). now rewrite H, K.
  - destruct H as (k1 & v1 & k2 & v2 & H & _). now rewrite H, !K.
  - destruct H as (i & u & c & a & H & Hnew). rewrite H, map_app. simpl.
    apply NoDup_app; [exact Hs | repeat constructor; intros [] | ].
    intros x Hx [Hx' | []]. subst x. exact (Hnew Hx).
Qed.

(* ================================================================== *)
(** ** Invariants of the ledger under requests served in turn *)

Lemma serve_nonNegative (r : Request) (s : Store) :
  0 <= requestAmount r -> nonNegative s -> nonNegative (serve r s).
Proof.
  intros Hr Hs. unfold nonNegative at 1.
  exact (effect_nonNegative s _ _ (serve_effect r s) Hr Hs).
Qed.

Lemma serve_unique (r : Request) (s : Store) :
  NoDup (ownerCurrencies s) -> NoDup (ownerCurrencies (serve r s)).
Proof.
  intros Hs. exact (effect_unique s _ _ (serve_effect r s) Hs).
Qed.

(** Whatever is served, no (owner, currency) pair gets a second wallet. *)
Lemma serveAll_unique (rs : list Request) (s : Store) :
  NoDup (ownerCurrencies s) -> NoDup (ownerCurrencies (serveAll rs s)).
Proof.
  revert s. induction rs as [|r rs IH]; intros s Hs; simpl; [exact Hs|].
  apply IH. now apply serve_unique.
Qed.

(** C3, as the specification has it, fails: a deposit of -5.00000000 on a
    freshly created wallet is recorded and leaves the balance at
    -5.00000000. *)
Lemma negative_deposit_makes_balance_negative :
  balanceOf (serveAll openAndDepositMinus5 emptyStore) 1 = Some (-500000000)
  /\ ~ nonNegative (serveAll openAndDepositMinus5 emptyStore).
Proof.
  split; [vm_compute; reflexivity|].
  intros H. unfold nonNegative in H. vm_compute in H.
  inversion H as [|w l Hw Hl]; subst. apply Hw. reflexivity.
Qed.

(** C3, amended: when the requests served in turn (transfers, deposits,
    withdrawals, crypto withdrawals, wallet creations) all carry an amount of
    at least 0 and the store starts without a negative balance (wallets are
    created with balance 0), no wallet has a negative balance afterwards. *)
Theorem balances_stay_non_negative (rs : list Request) (s : Store) :
  Forall (fun r => 0 <= requestAmount r) rs ->
  nonNegative s ->
  nonNegative (serveAll rs s).
Proof.
  revert s. induction rs as [|r rs IH]; intros s Hrs Hs; simpl; [exact Hs|].
  inversion Hrs as [|r' rs' Hr Hrest]; subst.
  apply IH; [exact Hrest|]. now apply serve_nonNegative.
Qed.

Lemma balances_stay_non_negative_witness :
  nonNegative (serveAll openDepositSpend emptyStore).
Proof.
  apply (balances_stay_non_negative openDepositSpend emptyStore).
  - repeat constructor; simpl; lia.
  - constructor.
Defined.

Section WalletClaims.

Import walletsRouter.

(** Two steps of a creation run alone are the procedure. *)
Lemma steps_create (ctx : Context) (input : CreateInput) (s s' : Store)
      (r : Reply string) :
  create ctx input s = (Returned r, s') ->
  createTask.steps 2 ctx input createTask.Start s = (createTask.Finished r, s').
Proof.
  destruct s as [c rows txs ws ts]. destruct c.
  2:{ vm_compute. intros H. now inversion H. }
  unfold create, createTask.steps, createTask.step, createTask.awaited. run_async.
  destruct (existsb _ _); simpl; intros H; now inversion H.
Qed.

(** Two creations, each run to its end in turn. *)
Lemma createInTurn_steps (c1 c2 : Context) (i1 i2 : CreateInput) (s : Store) :
  createTask.interleave createInTurn
    [createTask.spawn c1 i1; createTask.spawn c2 i2] s
  = ([createTask.mkTask c1 i1 (fst (createTask.steps 2 c1 i1 createTask.Start s));
      createTask.mkTask c2 i2
        (fst (createTask.steps 2 c2 i2 createTask.Start
                (snd (createTask.steps 2 c1 i1 createTask.Start s))))],
     snd (createTask.steps 2 c2 i2 createTask.Start
            (snd (createTask.steps 2 c1 i1 createTask.Start s)))).
Proof.
  unfold createInTurn, createTask.interleave, createTask.spawn.
  cbn [fold_left createTask.stepTask createTask.steps fst snd
       createTask.task_ctx createTask.task_input createTask.task_state].
  destruct (createTask.step c1 i1 createTask.Start s) as [st a].
  cbn [fst snd createTask.task_ctx createTask.task_input createTask.task_state].
  destruct (createTask.step c1 i1 st a) as [st' a'].
  cbn [fst snd createTask.task_ctx createTask.task_input createTask.task_state].
  destruct (createTask.step c2 i2 createTask.Start a') as [st2 b].
  cbn [fst snd createTask.task_ctx createTask.task_input createTask.task_state].
  destruct (createTask.step c2 i2 st2 b) as [st2' b'].
  reflexivity.
Qed.

(** C8, as the specification has it, fails: [wallets.create] looks for a
    wallet in one awaited call and inserts in another, and the table has no
    unique key on (userId, currencyCode).  When two creations of a EUR wallet
    for the same user are in flight and both look before either inserts, both
    succeed and the user has two EUR wallets. *)
Lemma creations_in_flight_both_insert :
  NoDup (ownerCurrencies ledger100)
  /\ createTask.interleave bothCheckFirst
       [createTask.spawn alice openEUR; createTask.spawn alice openEUR] ledger100 =
     ([createTask.mkTask alice openEUR
         (createTask.Finished (Success "EUR wallet created successfully"));
       createTask.mkTask alice openEUR
         (createTask.Finished (Success "EUR wallet created successfully"))],
      mkStore true
              [Wallet.mk 1 1 "USD" 10000000000 None true;
               Wallet.mk 2 2 "USD" 0 None true;
               Wallet.mk 3 1 "EUR" 0 None true;
               Wallet.mk 4 1 "EUR" 0 None true]
              [] 5 1)
  /\ ~ NoDup (ownerCurrencies
                (snd (createTask.interleave bothCheckFirst
                        [createTask.spawn alice openEUR;
                         createTask.spawn alice openEUR] ledger100))).
Proof.
  split; [|split].
  - repeat constructor; simpl; intuition discriminate.
  - reflexivity.
  - intros H. vm_compute in H.
    inversion H as [|x l Hx Hl]; subst.
    inversion Hl as [|x l Hx' Hl']; subst.
    inversion Hl' as [|x l Hx'' Hl'']; subst.
    apply Hx''. now left.
Qed.

(** C8, amended: for creations that run one after the other.  On a reachable
    database in which no (owner, currency) pair has two wallets,
    [wallets.create] keeps it so, and a second [wallets.create] of the same
    user for the same currency code, started after the first has finished,
    answers that the wallet already exists and leaves the store, hence the
    first wallet and its balance, as it was. *)
Theorem create_twice_fails
        (ctx : Context) (input input' : CreateInput) (s : Store) :
  connected s = true ->
  NoDup (ownerCurrencies s) ->
  currencyCode input' = currencyCode input ->
  exists r1 s1,
    create ctx input s = (Returned r1, s1)
    /\ NoDup (ownerCurrencies s1)
    /\ create ctx input' s1 =
       (Returned (Failure ("Wallet for " ++ currencyCode input ++ " already exists")),
        s1)
    /\ createTask.interleave createInTurn
         [createTask.spawn ctx input; createTask.spawn ctx input'] s =
       ([createTask.mkTask ctx input (createTask.Finished r1);
         createTask.mkTask ctx input'
           (createTask.Finished
              (Failure ("Wallet for " ++ currencyCode input ++ " already exists")))],
        s1).
Proof.
  intros Hc Hs Hcode.
  assert (G : exists r1 s1,
             create ctx input s = (Returned r1, s1)
             /\ NoDup (ownerCurrencies s1)
             /\ create ctx input' s1 =
                (Returned (Failure ("Wallet for " ++ currencyCode input
                                                  ++ " already exists")),
                 s1)).
  { pose proof (effect_unique s _ _ (create_effect ctx input s) Hs) as Hu.
    revert Hu. open_store s. unfold ownerCurrencies, create. run_async.
    rewrite Hcode.
    match goal with
    | |- context [existsb ?f ?l] => destruct (existsb f l) eqn:Hex
    end; simpl.
    - intros Hu. do 2 eexists. split; [reflexivity|]. split; [exact Hu|].
      simpl. rewrite Hex. reflexivity.
    - intros Hu. do 2 eexists. split; [reflexivity|]. split; [exact Hu|].
      simpl. rewrite filter_app, existsb_app. simpl.
      rewrite Z.eqb_refl. simpl. rewrite String.eqb_refl, orb_true_r. reflexivity. }
  destruct G as (r1 & s1 & H1 & Hu & H2).
  exists r1, s1. split; [exact H1|]. split; [exact Hu|]. split; [exact H2|].
  rewrite createInTurn_steps.
  rewrite (steps_create _ _ _ _ _ H1). cbn [fst snd].
  rewrite (steps_create _ _ _ _ _ H2). reflexivity.
Qed.

Lemma create_twice_fails_witness :
  exists r1 s1,
    create alice openEUR ledger100 = (Returned r1, s1)
    /\ NoDup (ownerCurrencies s1)
    /\ create alice (mkCreateInput "EUR" (Some "x")) s1 =
       (Returned (Failure "Wallet for EUR already exists"), s1)
    /\ createTask.interleave createInTurn
         [createTask.spawn alice openEUR;
          createTask.spawn alice (mkCreateInput "EUR" (Some "x"))] ledger100 =
       ([createTask.mkTask alice openEUR (createTask.Finished r1);
         createTask.mkTask alice (mkCreateInput "EUR" (Some "x"))
           (createTask.Finished (Failure "Wallet for EUR already exists"))],
        s1).
Proof.
  apply (create_twice_fails alice openEUR
                            (mkCreateInput "EUR" (Some "x")) ledger100).
  - reflexivity.
  - repeat constructor; simpl; intuition discriminate.
  - reflexivity.
Defined.

End WalletClaims.

(* ================================================================== *)
(** ** Transfers in flight: interleaved and one after the other *)

Section InFlight.

Import transactionsRouter transferTask.









End InFlight.
(* ================================================================== *)
(** ** transactions.recordDeposit and transactions.recordWithdrawal *)

Section DepositsAndWithdrawals.

Import transactionsRouter.





(** X2: neither a deposit nor a withdrawal reaches a wallet the caller does
    not own: on a wallet id that is unknown or belongs to someone else both
    answer "Invalid wallet" and leave the store as it was. *)
Theorem record_on_foreign_wallet_rejected
        (ctx : Context) (input : RecordInput) (s : Store) :
  connected s = true ->
  (forall w, walletById s (walletId input) = Some w ->
             Wallet.userId w <> ctx_user_id ctx) ->
  recordDeposit ctx input s = (Returned (Failure "Invalid wallet"), s)
  /\ recordWithdrawal ctx input s = (Returned (Failure "Invalid wallet"), s).
Proof.
  unfold walletById. intros Hc Hforeign. open_store s.
  unfold recordDeposit, recordWithdrawal. run_async.
  destruct (find _ _) as [w|]; [|split; reflexivity].
  specialize (Hforeign w eq_refl).
  rewrite (proj2 (Z.eqb_neq _ _) Hforeign). split; reflexivity.
Qed.

Lemma record_on_foreign_wallet_rejected_witness :
  recordDeposit bob (mkRecordInput 1 250000000 None None) ledger100
  = (Returned (Failure "Invalid wallet"), ledger100)
  /\ recordWithdrawal bob (mkRecordInput 1 250000000 None None) ledger100
     = (Returned (Failure "Invalid wallet"), ledger100).
Proof.
  apply (record_on_foreign_wallet_rejected
           bob (mkRecordInput 1 250000000 None None) ledger100).
  - reflexivity.
  - intros w Hw. vm_compute in Hw. inversion Hw; subst w. simpl. lia.
Defined.





End DepositsAndWithdrawals.

(* ================================================================== *)
(** ** Transfers: there and back, and the sum of all balances *)

Section TransferComposition.

Import transactionsRouter.









End TransferComposition.

(* ================================================================== *)
(** ** What no request does *)

Lemma sameWallet_refl (w : Wallet.t) : sameWallet w w.
Proof. repeat split. Qed.

Lemma sameWallet_trans (a b c : Wallet.t) :
  sameWallet a b -> sameWallet b c -> sameWallet a c.
Proof. unfold sameWallet. intuition congruence. Qed.

Lemma sameWallet_setBalance (k v : Z) (w : Wallet.t) :
  sameWallet w (db.setBalance k v w).
Proof. unfold sameWallet, db.setBalance. destruct (Wallet.id w =? k); repeat split. Qed.

Lemma find_app_some {A} (f : A -> bool) (l l' : list A) (a : A) :
  find f l = Some a -> find f (l ++ l') = Some a.
Proof.
  induction l as [|x l IH]; simpl; [discriminate|].
  destruct (f x); [trivial | exact IH].
Qed.

Lemma effect_keeps_wallets (s : Store) (P : Prop) (rows' : list Wallet.t)
      (i : Z) (w : Wallet.t) :
  Effect s P rows' ->
  walletById s i = Some w ->
  exists w', find (fun w => Wallet.id w =? i) rows' = Some w' /\ sameWallet w w'.
Proof.
  unfold walletById. intros [H | [H | [H | H]]] Hw.
  - exists w. rewrite H. split; [exact Hw | apply sameWallet_refl].
  - destruct H as (k & v & H & _). rewrite H. eexists.
    split; [apply find_setBalance_some; exact Hw | apply sameWallet_setBalance].
  - destruct H as (k1 & v1 & k2 & v2 & H & _). rewrite H. eexists. split.
    + do 2 apply find_setBalance_some. exact Hw.
    + eapply sameWallet_trans; apply sameWallet_setBalance.
  - destruct H as (j & u & c & a & H & _). rewrite H. exists w.
    split; [now apply find_app_some | apply sameWallet_refl].
Qed.

(** X7: no request removes a wallet, hands it to another owner, renames its
    currency, rewrites its address or flips its active flag: a wallet found
    under an id before any sequence of requests is found under that id
    afterwards, equal to itself but for the balance. *)
Theorem wallets_only_change_balance
        (rs : list Request) (s : Store) (i : Z) (w : Wallet.t) :
  walletById s i = Some w ->
  exists w', walletById (serveAll rs s) i = Some w' /\ sameWallet w w'.
Proof.
  revert s w. induction rs as [|r rs IH]; intros s w Hw; simpl.
  - exists w. split; [exact Hw | apply sameWallet_refl].
  - destruct (effect_keeps_wallets s _ _ i w (serve_effect r s) Hw)
      as (w1 & Hw1 & Hs1).
    destruct (IH (serve r s) w1 Hw1) as (w' & Hw' & Hs').
    exists w'. split; [exact Hw' | now apply (sameWallet_trans w w1 w')].
Qed.

Lemma wallets_only_change_balance_witness :
  exists w',
    walletById (serveAll [Transfer alice send80;
                          RecordDeposit bob
                            (transactionsRouter.mkRecordInput 2 100 None None);
                          GenerateAddress bob cryptoRouter.ETH]
                         ledgerInactive) 2 = Some w'
    /\ sameWallet (Wallet.mk 2 2 "USD" 0 None false) w'.
Proof.
  apply (wallets_only_change_balance _ ledgerInactive 2
                                     (Wallet.mk 2 2 "USD" 0 None false)).
  reflexivity.
Defined.

Ltac none_added :=
  exists []; simpl; rewrite app_nil_r; split; [reflexivity | lia].

Ltac one_added :=
  eexists [_]; split; [reflexivity | simpl; lia].

(** A request leaves the transaction rows alone or adds one at the end. *)
Lemma serve_transactions (r : Request) (s : Store) :
  exists added,
    transactionRows (serve r s) = (transactionRows s ++ added)%list
    /\ (List.length added <= 1)%nat.
Proof.
  assert (Same : forall s' : Store,
             transactionRows s' = transactionRows s ->
             exists added,
               transactionRows s' = (transactionRows s ++ added)%list
               /\ (List.length added <= 1)%nat).
  { intros s' H. exists []. rewrite H, app_nil_r. split; [reflexivity | simpl; lia]. }
  assert (One : forall (s' : Store) row,
             transactionRows s' = (transactionRows s ++ [row])%list ->
             exists added,
               transactionRows s' = (transactionRows s ++ added)%list
               /\ (List.length added <= 1)%nat).
  { intros s' row H. exists [row]. split; [exact H | simpl; lia]. }
  destruct r as [ctx i | ctx i | ctx i | ctx i | ctx i | ctx c]; simpl.
  - destruct (transfer_cases ctx i s)
      as [[_ H] | [[_ [_ H]] | [[_ [_ [_ H]]] | [[_ [_ H]] | H]]]];
      try (rewrite H; now apply Same).
    destruct H as (fw & tw & Hc & Hf & Ho & Ht & Hb).
    rewrite (transfer_accepted ctx i s fw tw Hc Hf Ho Ht Hb).
    eapply One. reflexivity.
  - clear Same One. destruct s as [c rows txs ws ts].
    unfold transactionsRouter.recordDeposit. destruct c; run_async;
      [|none_added].
    destruct (find _ rows) as [w|]; [|none_added].
    destruct (Wallet.userId w =? ctx_user_id ctx); simpl;
      [one_added | none_added].
  - clear Same One. destruct s as [c rows txs ws ts].
    unfold transactionsRouter.recordWithdrawal. destruct c; run_async;
      [|none_added].
    destruct (find _ rows) as [w|]; [|none_added].
    destruct (Wallet.userId w =? ctx_user_id ctx); simpl; [|none_added].
    destruct (JS.ltb _ _); simpl; [none_added | one_added].
  - clear Same One. destruct s as [c rows txs ws ts].
    unfold cryptoRouter.initiateWithdrawal. destruct c; run_async;
      [|none_added].
    destruct (find _ _) as [w|]; [|none_added].
    destruct (JS.ltb _ _); simpl; [none_added | one_added].
  - clear Same One. destruct s as [c rows txs ws ts].
    unfold walletsRouter.create. destruct c; run_async; [|none_added].
    destruct (existsb _ _); simpl; none_added.
  - clear Same One. destruct s as [c' rows txs ws ts].
    unfold cryptoRouter.generateAddress. destruct c'; run_async; [|none_added].
    destruct (existsb _ _); simpl; none_added.
Qed.

(** X8: the transaction table only grows, and by at most one row per
    request: after any sequence of requests it is the table from before
    followed by the added rows.  No request edits or deletes a row, whatever
    its status. *)
Theorem transactions_are_append_only (rs : list Request) (s : Store) :
  exists added,
    transactionRows (serveAll rs s) = (transactionRows s ++ added)%list
    /\ (List.length added <= List.length rs)%nat.
Proof.
  revert s. induction rs as [|r rs IH]; intros s; simpl.
  - exists []. rewrite app_nil_r. split; [reflexivity | simpl; lia].
  - destruct (serve_transactions r s) as (a1 & H1 & L1).
    destruct (IH (serve r s)) as (a2 & H2 & L2).
    exists (a1 ++ a2)%list. rewrite H2, H1, <- app_assoc.
    split; [reflexivity | rewrite length_app; lia].
Qed.

(** X9: requests served in turn never give an (owner, currency) pair a second
    wallet, whichever of [wallets.create] and [crypto.generateAddress] they
    use and in whatever order. *)
Theorem one_wallet_per_owner_and_currency (rs : list Request) (s : Store) :
  NoDup (ownerCurrencies s) -> NoDup (ownerCurrencies (serveAll rs s)).
Proof.
  revert s. induction rs as [|r rs IH]; intros s Hs; simpl; [exact Hs|].
  apply IH. exact (effect_unique s _ _ (serve_effect r s) Hs).
Qed.

Lemma one_wallet_per_owner_and_currency_witness :
  NoDup (ownerCurrencies
           (serveAll [GenerateAddress alice cryptoRouter.BTC;
                      CreateWallet alice (walletsRouter.mkCreateInput "BTC" None);
                      CreateWallet alice (walletsRouter.mkCreateInput "ETH" None);
                      GenerateAddress alice cryptoRouter.ETH]
                     emptyStore)).
Proof.
  apply (one_wallet_per_owner_and_currency _ emptyStore). constructor.
Defined.

Section RepeatedWithdrawals.

Import cryptoRouter.

(** X10: crypto withdrawals are not counted against the balance.  A
    withdrawal that is accepted once is accepted any number of times in a
    row: each call adds its pending row and the wallet rows never change, so
    the pending withdrawals of a wallet can add up to more than it holds. *)
Theorem initiateWithdrawal_can_repeat
        (ctx : Context) (input : WithdrawalInput) (s : Store) (w : Wallet.t)
        (n : nat) :
  connected s = true ->
  find (fun w => String.eqb (Wallet.currencyCode w) (code (cryptocurrency input)))
       (filter (fun w => Wallet.userId w =? ctx_user_id ctx) (walletRows s))
  = Some w ->
  amount input <= Wallet.balance w ->
  walletRows (serveAll (repeat (InitiateWithdrawal ctx input) n) s) = walletRows s
  /\ exists added,
      transactionRows (serveAll (repeat (InitiateWithdrawal ctx input) n) s)
      = (transactionRows s ++ added)%list
      /\ List.length added = n
      /\ Forall (fun t => Transaction.status t = TransactionStatus.pending /\
                          Transaction.transactionType t = TransactionType.withdrawal /\
                          Transaction.amount t = amount input /\
                          Transaction.fromWalletId t = Wallet.id w)
                added.
Proof.
  revert s. induction n as [|n IH]; intros s Hc Hw Hb; simpl.
  - split; [reflexivity|]. exists []. rewrite app_nil_r. repeat split. constructor.
  - rewrite (initiateWithdrawal_accepted ctx input s w Hc Hw (affordable _ _ Hb)).
    simpl.
    match goal with
    | |- context [serveAll _ ?st] => set (s1 := st)
    end.
    destruct (IH s1 eq_refl Hw Hb) as (Hrows & added & Htx & Hlen & Hall).
    split; [exact Hrows|].
    eexists (_ :: added). rewrite Htx. unfold s1. simpl. rewrite <- app_assoc.
    split; [reflexivity|]. split; [simpl; now rewrite Hlen|].
    constructor; [repeat split | exact Hall].
Qed.

Lemma initiateWithdrawal_can_repeat_witness :
  walletRows (serveAll (repeat (InitiateWithdrawal alice withdrawHalf) 3) ledgerCrypto)
  = walletRows ledgerCrypto
  /\ exists added,
      transactionRows
        (serveAll (repeat (InitiateWithdrawal alice withdrawHalf) 3) ledgerCrypto)
      = (transactionRows ledgerCrypto ++ added)%list
      /\ List.length added = 3%nat
      /\ Forall (fun t => Transaction.status t = TransactionStatus.pending /\
                          Transaction.transactionType t = TransactionType.withdrawal /\
                          Transaction.amount t = 50000000 /\
                          Transaction.fromWalletId t = 1)
                added.
Proof.
  apply (initiateWithdrawal_can_repeat
           alice withdrawHalf ledgerCrypto
           (Wallet.mk 1 1 "BTC" 100000000
                      (Some "1A1z7agoat4FqCnf4Xy2MQUqLCWCuqq2em") true) 3);
    first [reflexivity | simpl; lia].
Defined.

End RepeatedWithdrawals.

(* ================================================================== *)
(** ** crypto.generateAddress *)

Section GenerateAddress.

Import cryptoRouter.

Lemma mockAddress_not_empty (c : Cryptocurrency) :
  String.eqb (mockAddress c) "" = false.
Proof. now destruct c. Qed.

Lemma find_filter_app_new (u : Z) (c : string) (rows : list Wallet.t)
      (w : Wallet.t) :
  existsb (fun x => String.eqb (Wallet.currencyCode x) c)
          (filter (fun x => Wallet.userId x =? u) rows) = false ->
  Wallet.userId w = u ->
  Wallet.currencyCode w = c ->
  find (fun x => String.eqb (Wallet.currencyCode x) c)
       (filter (fun x => Wallet.userId x =? u) (rows ++ [w]))
  = Some w.
Proof.
  intros Hex Hu Hc. rewrite filter_app. simpl.
  rewrite (proj2 (Z.eqb_eq _ _) Hu).
  induction (filter (fun x => Wallet.userId x =? u) rows) as [|x l IH]; simpl in *.
  - now rewrite Hc, String.eqb_refl.
  - apply orb_false_iff in Hex. destruct Hex as [Hx Hl]. rewrite Hx. now apply IH.
Qed.

(** X11: [generateAddress] is idempotent: a second call for the same
    cryptocurrency answers what the first call answered and leaves the store
    as the first call left it, so at most the first call creates a wallet. *)
Theorem generateAddress_idempotent
        (ctx : Context) (c : Cryptocurrency) (s : Store) :
  generateAddress ctx c (snd (generateAddress ctx c s))
  = generateAddress ctx c s.
Proof.
  destruct s as [cn rows txs ws ts]. destruct cn; [|reflexivity].
  unfold generateAddress. run_async.
  destruct (existsb _ (filter _ rows)) eqn:Hex; simpl.
  - rewrite Hex. reflexivity.
  - rewrite filter_app, existsb_app. simpl. rewrite Z.eqb_refl. simpl.
    rewrite String.eqb_refl, orb_true_r.
    pose proof (find_filter_app_new (ctx_user_id ctx) (code c) rows
                  (Wallet.mk ws (ctx_user_id ctx) (code c) 0
                             (Some (mockAddress c)) true)
                  Hex eq_refl eq_refl) as Hfind.
    rewrite filter_app in Hfind. simpl in Hfind. rewrite Z.eqb_refl in Hfind.
    rewrite Hfind. simpl. unfold orDefault. rewrite mockAddress_not_empty.
    reflexivity.
Qed.

(** X12: for a caller whose first wallet in the cryptocurrency has no address
    (or an empty one), as a wallet made by [wallets.create] without an
    address has, [generateAddress] creates nothing, stores nothing, and
    answers with the Bitcoin mock address, for ETH as for BTC. *)
Theorem generateAddress_falls_back_to_bitcoin_address
        (ctx : Context) (c : Cryptocurrency) (s : Store) (w : Wallet.t) :
  connected s = true ->
  find (fun w => String.eqb (Wallet.currencyCode w) (code c))
       (filter (fun w => Wallet.userId w =? ctx_user_id ctx) (walletRows s))
  = Some w ->
  Wallet.address w = None \/ Wallet.address w = Some "" ->
  generateAddress ctx c s =
  (Returned (Success (mkAddressReply "1A1z7agoat4FqCnf4Xy2MQUqLCWCuqq2em" c)), s).
Proof.
  intros Hc Hw Ha. open_store s.
  unfold generateAddress. run_async.
  assert (Hex : existsb (fun w0 => String.eqb (Wallet.currencyCode w0) (code c))
                        (filter (fun w0 => Wallet.userId w0 =? ctx_user_id ctx)
                                walletRows0) = true).
  { apply find_some in Hw. apply existsb_exists. now exists w. }
  rewrite Hex, Hw. destruct Ha as [Ha | Ha]; rewrite Ha; reflexivity.
Qed.

Lemma generateAddress_falls_back_to_bitcoin_address_witness :
  generateAddress alice ETH
    (snd (walletsRouter.create alice (walletsRouter.mkCreateInput "ETH" None)
                               ledger100))
  = (Returned (Success (mkAddressReply "1A1z7agoat4FqCnf4Xy2MQUqLCWCuqq2em" ETH)),
     snd (walletsRouter.create alice (walletsRouter.mkCreateInput "ETH" None)
                               ledger100)).
Proof.
  apply (generateAddress_falls_back_to_bitcoin_address
           alice ETH _ (Wallet.mk 3 1 "ETH" 0 None true)).
  - reflexivity.
  - reflexivity.
  - left. reflexivity.
Defined.

End GenerateAddress.

(* ================================================================== *)
(** ** wallets.getById, wallets.getBalance, wallets.getPortfolioValue *)

Section WalletQueries.

Import walletsRouter.

(** X13: [getById] and [getBalance] answer for the caller's own wallets only.
    For a wallet of another user they answer "Wallet not found", word for
    word what they answer for an id that does not exist; for a wallet of the
    caller they hand out the row, respectively its balance and currency.
    Neither changes the store. *)
Theorem wallet_queries_are_owner_only (ctx : Context) (i : Z) (s : Store) :
  connected s = true ->
  match walletById s i with
  | Some w =>
    if Wallet.userId w =? ctx_user_id ctx
    then getById ctx i s = (Returned (Success w), s) /\
         getBalance ctx i s =
         (Returned (Success (mkBalanceReply (Wallet.balance w)
                                            (Wallet.currencyCode w))), s)
    else getById ctx i s = (Returned (Failure "Wallet not found"), s) /\
         getBalance ctx i s = (Returned (Failure "Wallet not found"), s)
  | None =>
    getById ctx i s = (Returned (Failure "Wallet not found"), s) /\
    getBalance ctx i s = (Returned (Failure "Wallet not found"), s)
  end.
Proof.
  unfold walletById. intros Hc. open_store s.
  unfold getById, getBalance. run_async.
  destruct (find _ _) as [w|]; [|split; reflexivity].
  destruct (Wallet.userId w =? ctx_user_id ctx); split; reflexivity.
Qed.

Lemma wallet_queries_are_owner_only_witness :
  getById bob 1 ledger100 = (Returned (Failure "Wallet not found"), ledger100) /\
  getBalance bob 1 ledger100 = (Returned (Failure "Wallet not found"), ledger100).
Proof.
  exact (wallet_queries_are_owner_only bob 1 ledger100 eq_refl).
Defined.



(** X15: the portfolio value is the plain sum of the balances of the caller's
    wallets, added up on doubles from 0 in the order of the wallets, whatever
    their currencies: the base currency asked for only labels the answer, and
    the value is the total that [getDistribution] divides by.  When no wallet
    of the caller has a negative balance the value is at least 0. *)
Theorem getPortfolioValue_is_plain_sum
        (ctx : Context) (baseCurrency : string) (s : Store) :
  connected s = true ->
  exists total,
    getPortfolioValue ctx baseCurrency s =
    (Returned (Success (mkPortfolioReply total baseCurrency)), s)
    /\ total = fold_left (fun sum w => JS.add sum (JS.parseFloat (Wallet.balance w)))
                         (filter (fun w => Wallet.userId w =? ctx_user_id ctx)
                                 (walletRows s))
                         0%Q
    /\ total = totalValue (filter (fun w => Wallet.userId w =? ctx_user_id ctx)
                                  (walletRows s))
    /\ (forall other,
           getPortfolioValue ctx other s =
           (Returned (Success (mkPortfolioReply total other)), s))
    /\ (Forall (fun w => 0 <= Wallet.balance w)
               (filter (fun w => Wallet.userId w =? ctx_user_id ctx) (walletRows s)) ->
        (0 <= total)%Q).
Proof.
  intros Hc. open_store s. eexists.
  split; [unfold getPortfolioValue; run_async; reflexivity|].
  split; [reflexivity|]. split; [reflexivity|]. split.
  - intros other. unfold getPortfolioValue. run_async. reflexivity.
  - intros Hpos. apply sum_nonneg; [exact Hpos | apply Qle_refl].
Qed.

Lemma getPortfolioValue_is_plain_sum_witness :
  exists total,
    getPortfolioValue alice "EUR" ledgerCrypto =
    (Returned (Success (mkPortfolioReply total "EUR")), ledgerCrypto)
    /\ total = fold_left (fun sum w => JS.add sum (JS.parseFloat (Wallet.balance w)))
                         (walletRows ledgerCrypto) 0%Q
    /\ total = totalValue (walletRows ledgerCrypto)
    /\ (forall other,
           getPortfolioValue alice other ledgerCrypto =
           (Returned (Success (mkPortfolioReply total other)), ledgerCrypto))
    /\ (Forall (fun w => 0 <= Wallet.balance w) (walletRows ledgerCrypto) ->
        (0 <= total)%Q).
Proof.
  exact (getPortfolioValue_is_plain_sum alice "EUR" ledgerCrypto eq_refl).
Defined.

End WalletQueries.

(* ================================================================== *)
(** ** transactions.list and transactions.getById *)

Section TransactionQueries.

Import transactionsRouter.

Lemma typeEqb_eq (a b : TransactionType.t) : typeEqb a b = true <-> a = b.
Proof. destruct a, b; simpl; split; congruence. Qed.

Lemma statusEqb_eq (a b : TransactionStatus.t) : statusEqb a b = true <-> a = b.
Proof. destruct a, b; simpl; split; congruence. Qed.

Lemma in_firstn {A} (n : nat) (l : list A) (a : A) : In a (firstn n l) -> In a l.
Proof.
  intros H. rewrite <- (firstn_skipn n l). apply in_or_app. now left.
Qed.

Lemma in_skipn {A} (n : nat) (l : list A) (a : A) : In a (skipn n l) -> In a l.
Proof.
  intros H. rewrite <- (firstn_skipn n l). apply in_or_app. now right.
Qed.

Lemma find_head {A} (f : A -> bool) (a : A) (l : list A) :
  f a = true -> find f (a :: l) = Some a.
Proof. intros H. simpl. now rewrite H. Qed.

(** Unfolding of a query on a store taken apart, leaving [firstn] folded. *)
Ltac run_query :=
  cbv beta iota zeta delta
      [tryCatch bind ret throw db.getUserTransactions db.requireDb db.getDb
       connected transactionRows].

(** What [getUserTransactions] hands out are rows of the table that involve
    the user, at most [limit] of them. *)
Lemma fetched_rows (u : Z) (lim off : nat) (txs : list Transaction.t)
      (t : Transaction.t) :
  In t (firstn lim (skipn off (rev (filter (db.involves u) txs)))) ->
  In t txs /\ db.involves u t = true.
Proof.
  intros H. apply in_firstn, in_skipn, in_rev, filter_In in H. exact H.
Qed.

(** What [transactions.list] answers on a reachable database. *)
Lemma list_answer (ctx : Context) (input : ListInput) (s : Store) :
  connected s = true ->
  exists txs,
    list_ ctx input s = (Returned (Success (mkListReply txs (List.length txs))), s)
    /\ (List.length txs <= limit input)%nat
    /\ (forall t, In t txs ->
                  In t (transactionRows s)
                  /\ db.involves (ctx_user_id ctx) t = true
                  /\ (forall ty, type_ input = Some ty ->
                                 Transaction.transactionType t = ty)
                  /\ (forall st, l_status input = Some st ->
                                 Transaction.status t = st))
    /\ (offset input = 0%nat ->
        (List.length (transactionRows s) <= limit input)%nat ->
        forall t, In t (transactionRows s) ->
                  db.involves (ctx_user_id ctx) t = true ->
                  (forall ty, type_ input = Some ty ->
                              Transaction.transactionType t = ty) ->
                  (forall st, l_status input = Some st ->
                              Transaction.status t = st) ->
                  In t txs).
Proof.
  intros Hc. destruct s as [c rows txs0 ws ts]. simpl in Hc. subst c.
  unfold list_. run_async.
  set (fetched := firstn (limit input)
                    (skipn (offset input)
                       (rev (filter (db.involves (ctx_user_id ctx)) txs0)))).
  assert (Hlen : (List.length fetched <= limit input)%nat)
    by apply firstn_le_length.
  eexists. split; [reflexivity|]. split; [|split].
  - destruct (type_ input), (l_status input);
      repeat (etransitivity; [apply filter_length_le|]); exact Hlen.
  - intros t Ht.
    assert (Hin : In t fetched /\
                  (forall ty, type_ input = Some ty ->
                              Transaction.transactionType t = ty) /\
                  (forall st, l_status input = Some st ->
                              Transaction.status t = st)).
    { destruct (type_ input) as [ty|], (l_status input) as [st|];
        repeat (apply filter_In in Ht; destruct Ht as [Ht ?]);
        (split; [exact Ht|]); split; intros x Hx; inversion Hx; subst;
          try (now apply typeEqb_eq); try (now apply statusEqb_eq). }
    destruct Hin as (Hf & Hty & Hst).
    apply fetched_rows in Hf. simpl. tauto.
  - simpl. intros Hoff Hlim t Hin Hinv Hty Hst.
    assert (Hf : In t fetched).
    { unfold fetched. rewrite Hoff. simpl skipn.
      rewrite firstn_all2.
      - apply -> in_rev. apply filter_In. now split.
      - rewrite length_rev. etransitivity; [apply filter_length_le | exact Hlim]. }
    destruct (type_ input) as [ty|], (l_status input) as [st|];
      repeat (apply filter_In; split); try exact Hf;
        try (apply typeEqb_eq; now apply Hty);
        try (apply statusEqb_eq; now apply Hst).
Qed.

(** X17: [transactions.list] shows a caller rows of the table that name the
    caller as sender or as receiver and that pass the type and status filters
    given, at most [limit] of them, with [total] their number; and with
    offset 0 and a limit that covers the table it shows every such row. *)
Theorem list_shows_own_matching_rows (ctx : Context) (input : ListInput) (s : Store) :
  connected s = true ->
  exists txs,
    list_ ctx input s = (Returned (Success (mkListReply txs (List.length txs))), s)
    /\ (List.length txs <= limit input)%nat
    /\ (forall t, In t txs ->
                  In t (transactionRows s)
                  /\ db.involves (ctx_user_id ctx) t = true
                  /\ (forall ty, type_ input = Some ty ->
                                 Transaction.transactionType t = ty)
                  /\ (forall st, l_status input = Some st ->
                                 Transaction.status t = st))
    /\ (offset input = 0%nat ->
        (List.length (transactionRows s) <= limit input)%nat ->
        forall t, In t (transactionRows s) ->
                  db.involves (ctx_user_id ctx) t = true ->
                  (forall ty, type_ input = Some ty ->
                              Transaction.transactionType t = ty) ->
                  (forall st, l_status input = Some st ->
                              Transaction.status t = st) ->
                  In t txs).
Proof. exact (list_answer ctx input s). Qed.

Lemma list_shows_own_matching_rows_witness :
  exists txs,
    list_ alice (mkListInput 50 0 (Some TransactionType.transfer) None)
          (snd (transfer alice send80 ledger100))
    = (Returned (Success (mkListReply txs (List.length txs))),
       snd (transfer alice send80 ledger100))
    /\ (List.length txs <= 50)%nat
    /\ (forall t, In t txs ->
                  In t (transactionRows (snd (transfer alice send80 ledger100)))
                  /\ db.involves 1 t = true
                  /\ (forall ty, Some TransactionType.transfer = Some ty ->
                                 Transaction.transactionType t = ty)
                  /\ (forall st, None = Some st -> Transaction.status t = st))
    /\ (0%nat = 0%nat ->
        (1 <= 50)%nat ->
        forall t, In t (transactionRows (snd (transfer alice send80 ledger100))) ->
                  db.involves 1 t = true ->
                  (forall ty, Some TransactionType.transfer = Some ty ->
                              Transaction.transactionType t = ty) ->
                  (forall st, None = Some st -> Transaction.status t = st) ->
                  In t txs).
Proof.
  exact (list_shows_own_matching_rows
           alice (mkListInput 50 0 (Some TransactionType.transfer) None)
           (snd (transfer alice send80 ledger100)) eq_refl).
Defined.

(** X18: [transactions.getById] hands out a row only if it has the id asked
    for and names the caller as sender or receiver; when no row of that id
    names the caller, whether rows of that id exist or not, the answer is
    "Transaction not found".  The store is never changed. *)
Theorem getById_shows_own_rows_only (ctx : Context) (i : Z) (s : Store) :
  connected s = true ->
  (forall t s',
      getById ctx i s = (Returned (Success t), s') ->
      s' = s /\ In t (transactionRows s) /\ Transaction.id t = i /\
      db.involves (ctx_user_id ctx) t = true)
  /\ ((forall t, In t (transactionRows s) -> Transaction.id t = i ->
                 db.involves (ctx_user_id ctx) t = false) ->
      getById ctx i s = (Returned (Failure "Transaction not found"), s)).
Proof.
  intros Hc. destruct s as [c rows txs ws ts]. simpl in Hc. subst c.
  unfold getById. run_query.
  destruct (find _ _) as [t0|] eqn:Hfind.
  - apply find_some in Hfind. destruct Hfind as [Hin Hid].
    apply fetched_rows in Hin. apply Z.eqb_eq in Hid. split.
    + intros t s' H. inversion H; subst. tauto.
    + intros Hnone. destruct Hin as [Hin Hinv].
      rewrite (Hnone t0 Hin Hid) in Hinv. discriminate.
  - split; [intros t s' H; discriminate | reflexivity].
Qed.

Lemma getById_shows_own_rows_only_witness :
  (forall t s',
      getById bob 1 (snd (transfer alice sendMisnamed ledger100))
      = (Returned (Success t), s') ->
      s' = snd (transfer alice sendMisnamed ledger100) /\
      In t (transactionRows (snd (transfer alice sendMisnamed ledger100))) /\
      Transaction.id t = 1 /\ db.involves 2 t = true)
  /\ ((forall t, In t (transactionRows (snd (transfer alice sendMisnamed ledger100))) ->
                 Transaction.id t = 1 -> db.involves 2 t = false) ->
      getById bob 1 (snd (transfer alice sendMisnamed ledger100))
      = (Returned (Failure "Transaction not found"),
         snd (transfer alice sendMisnamed ledger100))).
Proof.
  exact (getById_shows_own_rows_only
           bob 1 (snd (transfer alice sendMisnamed ledger100)) eq_refl).
Defined.

Lemma newest_row_first (u : Z) (txs : list Transaction.t) (row : Transaction.t)
      (n : nat) :
  db.involves u row = true ->
  firstn (S n) (skipn 0 (rev (filter (db.involves u) (txs ++ [row]))))
  = row :: firstn n (rev (filter (db.involves u) txs)).
Proof.
  intros H. rewrite filter_app. simpl. rewrite H, rev_app_distr. reflexivity.
Qed.

(** X19: the history follows the [toUserId] of the request, not the owner of
    the credited wallet.  After an accepted transfer the new row can be
    fetched by its id by the sender and by the user the request named as
    receiver; the owner of the destination wallet, when the request named
    someone else, does not find the row in any listing. *)
Theorem transfer_history_follows_toUserId
        (ctx : Context) (input : TransferInput) (s : Store) (fw tw : Wallet.t) :
  connected s = true ->
  walletById s (fromWalletId input) = Some fw ->
  Wallet.userId fw = ctx_user_id ctx ->
  walletById s (toWalletId input) = Some tw ->
  amount input <= Wallet.balance fw ->
  Wallet.userId tw <> toUserId input ->
  Wallet.userId tw <> ctx_user_id ctx ->
  exists s' row,
    transfer ctx input s = (Returned (Success "Transfer completed successfully"), s')
    /\ transactionRows s' = (transactionRows s ++ [row])%list
    /\ getById ctx (transactionSeq s) s' = (Returned (Success row), s')
    /\ getById (mkContext (toUserId input)) (transactionSeq s) s'
       = (Returned (Success row), s')
    /\ (forall li reply,
           list_ (mkContext (Wallet.userId tw)) li s' = (Returned (Success reply), s') ->
           ~ In row (transactions reply)).
Proof.
  intros Hc Hf Ho Ht Hb Hn1 Hn2. apply affordable in Hb.
  eexists. eexists.
  split; [apply (transfer_accepted ctx input s fw tw); assumption|].
  split; [reflexivity|].
  set (row := db.insertedRow (transactionSeq s) (transferData ctx input)).
  assert (Hsender : db.involves (ctx_user_id ctx) row = true).
  { unfold db.involves, row. simpl. now rewrite Z.eqb_refl. }
  assert (Hnamed : db.involves (toUserId input) row = true).
  { unfold db.involves, row. simpl. rewrite Z.eqb_refl. apply orb_true_r. }
  assert (Howner : db.involves (Wallet.userId tw) row = false).
  { unfold db.involves, row. simpl.
    rewrite (proj2 (Z.eqb_neq _ _) (not_eq_sym Hn1)).
    rewrite (proj2 (Z.eqb_neq _ _) (not_eq_sym Hn2)). reflexivity. }
  split; [|split].
  - unfold getById. run_query.
    rewrite (newest_row_first _ _ row _ Hsender).
    rewrite find_head by (simpl; apply Z.eqb_refl). reflexivity.
  - unfold getById. run_query.
    rewrite (newest_row_first _ _ row _ Hnamed).
    rewrite find_head by (simpl; apply Z.eqb_refl). reflexivity.
  - intros li reply Hlist Hin.
    match type of Hlist with
    | list_ ?c ?i ?st = _ =>
      destruct (list_answer c i st eq_refl)
        as (txs & Hrun & _ & Hsound & _)
    end.
    rewrite Hrun in Hlist. inversion Hlist; subst reply. simpl in Hin.
    destruct (Hsound _ Hin) as (_ & Hinv & _). simpl in Hinv.
    fold row in Hin. congruence.
Qed.

Lemma transfer_history_follows_toUserId_witness :
  exists s' row,
    transfer alice sendMisnamed ledger100
    = (Returned (Success "Transfer completed successfully"), s')
    /\ transactionRows s' = [row]
    /\ getById alice 1 s' = (Returned (Success row), s')
    /\ getById (mkContext 7) 1 s' = (Returned (Success row), s')
    /\ (forall li reply,
           list_ (mkContext 2) li s' = (Returned (Success reply), s') ->
           ~ In row (transactions reply)).
Proof.
  apply (transfer_history_follows_toUserId
           alice sendMisnamed ledger100
           (Wallet.mk 1 1 "USD" 10000000000 None true)
           (Wallet.mk 2 2 "USD" 0 None true));
    first [reflexivity | simpl; lia].
Defined.

End TransactionQueries.

(* ================================================================== *)
(** ** The exchange rates *)

Section ExchangeRates.

Import exchange.

(** Unfolding of the exchange procedures down to the database. *)
Ltac run_db :=
  cbv beta iota zeta delta
      [tryCatchDb bindDb retDb requireDb getExchangeRate upsertExchangeRate
       getRate convert updateRate];
  simpl.

Lemma isPair_true (weight : string -> string) (f t : string) (r : ExchangeRate.t) :
  isPair weight f t r = true <->
  weight (ExchangeRate.fromCurrency r) = weight f /\
  weight (ExchangeRate.toCurrency r) = weight t.
Proof.
  unfold isPair, sqlEq. rewrite andb_true_iff, !String.eqb_eq. tauto.
Qed.

Lemma isPair_setRate (weight : string -> string) (f t f' t' : string) (v : Z)
      (src : string) (r : ExchangeRate.t) :
  isPair weight f t (setRate weight f' t' v src r) = isPair weight f t r.
Proof. unfold setRate. now destruct (isPair weight f' t' r). Qed.

Lemma find_setRate (weight : string -> string) (f t f' t' : string) (v : Z)
      (src : string) (rows : list ExchangeRate.t) :
  find (isPair weight f t) (map (setRate weight f' t' v src) rows)
  = option_map (setRate weight f' t' v src) (find (isPair weight f t) rows).
Proof.
  induction rows as [|r rows IH]; simpl; [reflexivity|].
  rewrite isPair_setRate. destruct (isPair weight f t r); [reflexivity | exact IH].
Qed.

Lemma find_app_none {A} (p : A -> bool) (l l' : list A) :
  find p l = None -> find p (l ++ l') = find p l'.
Proof.
  induction l as [|x l IH]; simpl; [reflexivity|].
  destruct (p x); [discriminate | exact IH].
Qed.


(** The row found for a pair that the collation tells apart from the pair
    updated is the one found before. *)
Lemma upsert_lookup_other (weight : string -> string) (f t f' t' : string) (v : Z)
      (src : string) (rows : list ExchangeRate.t) (n : Z) :
  (weight f', weight t') <> (weight f, weight t) ->
  find (isPair weight f' t')
       (match find (isPair weight f t) rows with
        | Some _ => map (setRate weight f t v src) rows
        | None => rows ++ [ExchangeRate.mk n f t v (Some src)]
        end)
  = find (isPair weight f' t') rows.
Proof.
  intros Hne. destruct (find (isPair weight f t) rows) as [r|] eqn:Hr.
  - rewrite find_setRate.
    destruct (find (isPair weight f' t') rows) as [r'|] eqn:Hr'; [|reflexivity].
    simpl. apply find_some in Hr'. destruct Hr' as [_ Hr'].
    apply isPair_true in Hr'. destruct Hr' as [H1 H2].
    unfold setRate. destruct (isPair weight f t r') eqn:E; [|reflexivity].
    apply isPair_true in E. destruct E as [E1 E2].
    exfalso. apply Hne. congruence.
  - destruct (find (isPair weight f' t') rows) as [r'|] eqn:Hr'.
    + now apply find_app_some.
    + rewrite (find_app_none _ _ _ Hr'). simpl.
      destruct (isPair weight f' t' _) eqn:E; [|reflexivity].
      apply isPair_true in E. simpl in E. destruct E as [E1 E2].
      exfalso. apply Hne. congruence.
Qed.

Lemma upsert_shape (f t : string) (v : Z) (src : option string) (d : Database) :
  connected (ledger d) = true ->
  updateRate f t v src d =
  (Returned (Success "Exchange rate updated successfully"),
   mkDatabase (ledger d) (collation d)
     (match find (isPair (collation d) f t) (exchangeRateRows d) with
      | Some _ => map (setRate (collation d) f t v (orDefault src "manual"))
                      (exchangeRateRows d)
      | None => exchangeRateRows d ++
                  [ExchangeRate.mk (exchangeRateSeq d) f t v
                                   (Some (orDefault src "manual"))]
      end)
     (match find (isPair (collation d) f t) (exchangeRateRows d) with
      | Some _ => exchangeRateSeq d
      | None => exchangeRateSeq d + 1
      end)).
Proof.
  intros Hc. destruct d as [[c wr tr wq tq] weight rows n]. simpl in *. subst c.
  run_db. destruct (find _ rows); reflexivity.
Qed.



(** X21: [updateRate] of one pair leaves every pair that the collation of the
    database tells apart from it as it was, the reversed pair included: no
    inverse rate is derived, and what [getRate] and [convert] answer for such
    a pair is what they answered before.  (A pair that differs from the
    updated one only in what the collation ignores, such as the case of the
    letters under a case-insensitive collation, is the same pair to the
    database.) *)
Theorem updateRate_leaves_other_pairs
        (from to : string) (rate : Z) (source : option string)
        (from' to' : string) (amount : Z) (d : Database) :
  connected (ledger d) = true ->
  (collation d from', collation d to') <> (collation d from, collation d to) ->
  fst (getRate from' to' (snd (updateRate from to rate source d)))
  = fst (getRate from' to' d)
  /\ fst (convert amount from' to' (snd (updateRate from to rate source d)))
     = fst (convert amount from' to' d).
Proof.
  intros Hc Hne. rewrite (upsert_shape from to rate source d Hc). simpl snd.
  pose proof (upsert_lookup_other (collation d) from to from' to' rate
                                  (orDefault source "manual")
                                  (exchangeRateRows d) (exchangeRateSeq d) Hne)
    as Hother.
  destruct d as [[c wr tr wq tq] weight rows n]. simpl in *. subst c. split.
  - run_db. rewrite Hother.
    destruct (find (isPair weight from' to') rows); reflexivity.
  - run_db. rewrite Hother.
    destruct (find (isPair weight from' to') rows); reflexivity.
Qed.

Lemma updateRate_leaves_other_pairs_witness :
  fst (getRate "USD" "BTC"
         (snd (updateRate "BTC" "USD" 4250000000000 None
                          (mkDatabase ledger100 caseInsensitive [] 1))))
  = fst (getRate "USD" "BTC" (mkDatabase ledger100 caseInsensitive [] 1))
  /\ fst (convert 100000000 "USD" "BTC"
            (snd (updateRate "BTC" "USD" 4250000000000 None
                             (mkDatabase ledger100 caseInsensitive [] 1))))
     = fst (convert 100000000 "USD" "BTC"
              (mkDatabase ledger100 caseInsensitive [] 1)).
Proof.
  apply (updateRate_leaves_other_pairs
           "BTC" "USD" 4250000000000 None "USD" "BTC" 100000000
           (mkDatabase ledger100 caseInsensitive [] 1)).
  - reflexivity.
  - vm_compute. intros H. inversion H.
Defined.

Lemma upsert_pairs (weight : string -> string) (f t : string) (v : Z) (src : string)
      (rows : list ExchangeRate.t) :
  map (fun r => (ExchangeRate.fromCurrency r, ExchangeRate.toCurrency r))
      (map (setRate weight f t v src) rows)
  = map (fun r => (ExchangeRate.fromCurrency r, ExchangeRate.toCurrency r)) rows.
Proof.
  rewrite map_map. apply map_ext. intros r. unfold setRate.
  now destruct (isPair weight f t r).
Qed.

(** X22: [updateRate] never gives a pair a second row: if every pair has at
    most one row before, every pair has at most one row afterwards, and the
    update of a pair that has a row does not add one. *)
Theorem updateRate_keeps_one_row_per_pair
        (from to : string) (rate : Z) (source : option string) (d : Database) :
  connected (ledger d) = true ->
  NoDup (map (fun r => (ExchangeRate.fromCurrency r, ExchangeRate.toCurrency r))
             (exchangeRateRows d)) ->
  NoDup (map (fun r => (ExchangeRate.fromCurrency r, ExchangeRate.toCurrency r))
             (exchangeRateRows (snd (updateRate from to rate source d))))
  /\ (In (from, to)
         (map (fun r => (ExchangeRate.fromCurrency r, ExchangeRate.toCurrency r))
              (exchangeRateRows d)) ->
      List.length (exchangeRateRows (snd (updateRate from to rate source d)))
      = List.length (exchangeRateRows d)).
Proof.
  intros Hc Hnd. rewrite (upsert_shape from to rate source d Hc). simpl.
  destruct (find (isPair (collation d) from to) (exchangeRateRows d))
    as [r|] eqn:Hr.
  - rewrite upsert_pairs. split; [exact Hnd | intros _; apply length_map].
  - assert (Hnot : ~ In (from, to)
                     (map (fun r => (ExchangeRate.fromCurrency r,
                                     ExchangeRate.toCurrency r))
                          (exchangeRateRows d))).
    { intros Hin. apply in_map_iff in Hin. destruct Hin as (r & Hp & Hin).
      inversion Hp. apply (find_none _ _ Hr) in Hin.
      assert (isPair (collation d) from to r = true)
        by (apply isPair_true; split; congruence).
      congruence. }
    split; [|intros Hin; contradiction].
    rewrite map_app. simpl.
    apply NoDup_app; [exact Hnd | repeat constructor; intros [] | ].
    intros x Hx [Hx' | []]. subst x. exact (Hnot Hx).
Qed.

Lemma updateRate_keeps_one_row_per_pair_witness :
  NoDup (map (fun r => (ExchangeRate.fromCurrency r, ExchangeRate.toCurrency r))
             (exchangeRateRows
                (snd (updateRate "BTC" "USD" 4300000000000 None
                        (mkDatabase ledger100 binary
                           [ExchangeRate.mk 1 "BTC" "USD" 4250000000000 (Some "manual")]
                           2)))))
  /\ (In ("BTC", "USD")
         (map (fun r => (ExchangeRate.fromCurrency r, ExchangeRate.toCurrency r))
              [ExchangeRate.mk 1 "BTC" "USD" 4250000000000 (Some "manual")]) ->
      List.length
        (exchangeRateRows
           (snd (updateRate "BTC" "USD" 4300000000000 None
                   (mkDatabase ledger100 binary
                      [ExchangeRate.mk 1 "BTC" "USD" 4250000000000 (Some "manual")]
                      2))))
      = List.length [ExchangeRate.mk 1 "BTC" "USD" 4250000000000 (Some "manual")]).
Proof.
  apply (updateRate_keeps_one_row_per_pair
           "BTC" "USD" 4300000000000 None
           (mkDatabase ledger100 binary
              [ExchangeRate.mk 1 "BTC" "USD" 4250000000000 (Some "manual")] 2)).
  - reflexivity.
  - repeat constructor. simpl. tauto.
Defined.



Lemma crossPairs_symmetric (fiats cryptos : list string) (a b : string) :
  In (a, b) (crossPairs fiats cryptos) -> In (b, a) (crossPairs fiats cryptos).
Proof.
  unfold crossPairs. intros H.
  apply in_flat_map in H. destruct H as (f & Hf & H).
  apply in_flat_map in H. destruct H as (c & Hc & H).
  apply in_flat_map. exists f. split; [exact Hf|].
  apply in_flat_map. exists c. split; [exact Hc|].
  simpl in *. destruct H as [H | [H | []]]; inversion H; subst; auto.
Qed.

Lemma fiatPairs_symmetric (fiats : list string) (a b : string) :
  In (a, b) (fiatPairs fiats) -> In (b, a) (fiatPairs fiats).
Proof.
  induction fiats as [|f rest IH]; simpl; [trivial|].
  intros H. apply in_app_or in H. apply in_or_app. destruct H as [H | H].
  - left. apply in_flat_map in H. destruct H as (g & Hg & H).
    apply in_flat_map. exists g. split; [exact Hg|].
    simpl in *. destruct H as [H | [H | []]]; inversion H; subst; auto.
  - right. now apply IH.
Qed.

(** X24: the supported pairs always come in both directions: whenever
    (a, b) is listed, (b, a) is listed too.  There are 78 of them, none pairs
    a currency with itself, and none pairs two cryptocurrencies. *)
Theorem supported_pairs_are_symmetric :
  exists ps,
    getSupportedPairs = Success (mkPairsReply ps 78)
    /\ (forall a b, In (a, b) ps -> In (b, a) ps)
    /\ (forall a b, In (a, b) ps ->
                    a <> b /\ (In a fiatCurrencies \/ In b fiatCurrencies)).
Proof.
  eexists. split; [reflexivity|]. split.
  - intros a b H. apply in_app_or in H. apply in_or_app.
    destruct H as [H | H];
      [left; now apply crossPairs_symmetric | right; now apply fiatPairs_symmetric].
  - assert (F : Forall (fun p : string * string =>
                          fst p <> snd p /\
                          (In (fst p) fiatCurrencies \/ In (snd p) fiatCurrencies))
                       (crossPairs fiatCurrencies cryptoCurrencies
                        ++ fiatPairs fiatCurrencies)).
    { vm_compute crossPairs. vm_compute fiatPairs. simpl app.
      repeat (constructor;
              [split; [simpl; intros E; discriminate E | simpl; tauto]|]).
      constructor. }
    intros a b H. rewrite Forall_forall in F. exact (F (a, b) H).
Qed.

End ExchangeRates.

(* ================================================================== *)
(** ** wallets.create with wallets.list, crypto.initiateWithdrawal with
       crypto.getBalance *)

Section CreateAndList.

Import walletsRouter.

(** X25: a wallet that [create] makes shows up in the caller's [list], last,
    with balance 0, active, under the next id and with the address given;
    the wallets listed before are listed as before.  This is the case when
    the caller has no wallet in that currency code yet. *)
Theorem create_then_list
        (ctx : Context) (input : CreateInput) (s : Store) :
  connected s = true ->
  existsb (fun w => String.eqb (Wallet.currencyCode w) (currencyCode input))
          (filter (fun w => Wallet.userId w =? ctx_user_id ctx) (walletRows s))
  = false ->
  exists s' before,
    create ctx input s =
    (Returned (Success (currencyCode input ++ " wallet created successfully")), s')
    /\ list_ ctx s = (Returned (Success before), s)
    /\ list_ ctx s' =
       (Returned
          (Success
             (before ++
                [Wallet.mk (walletSeq s) (ctx_user_id ctx) (currencyCode input) 0
                           (address input) true])%list),
        s').
Proof.
  intros Hc Hex. open_store s.
  unfold create, list_. run_async. rewrite Hex.
  do 2 eexists. split; [reflexivity|]. split; [reflexivity|].
  simpl. rewrite filter_app. simpl. rewrite Z.eqb_refl. reflexivity.
Qed.

Lemma create_then_list_witness :
  exists s' before,
    create bob (mkCreateInput "EUR" None) ledger100 =
    (Returned (Success "EUR wallet created successfully"), s')
    /\ list_ bob ledger100 = (Returned (Success before), ledger100)
    /\ list_ bob s' =
       (Returned (Success (before ++ [Wallet.mk 3 2 "EUR" 0 None true])%list), s').
Proof.
  apply (create_then_list bob (mkCreateInput "EUR" None) ledger100);
    reflexivity.
Defined.

End CreateAndList.

Section CryptoBalance.

Import cryptoRouter.

(** X26: whatever withdrawal is initiated, accepted or not, and by whomever,
    what [crypto.getBalance] answers afterwards is what it answered before:
    the funds of a pending withdrawal stay in the balance shown. *)
Theorem crypto_balance_ignores_initiated_withdrawals
        (ctx ctx' : Context) (input : WithdrawalInput) (c : Cryptocurrency)
        (s : Store) :
  fst (getBalance ctx c (snd (initiateWithdrawal ctx' input s)))
  = fst (getBalance ctx c s).
Proof.
  destruct s as [cn rows txs ws ts]. destruct cn; [|reflexivity].
  unfold initiateWithdrawal, getBalance. run_async.
  destruct (find _ (filter (fun w => Wallet.userId w =? ctx_user_id ctx') rows))
    as [w|]; simpl;
    [destruct (JS.ltb _ _); simpl|];
    destruct (find _ (filter (fun w => Wallet.userId w =? ctx_user_id ctx) rows));
    reflexivity.
Qed.

End CryptoBalance.
